(** * Todo application: record store, HTTP API and UI state container

    A shallow embedding of the todo service:
    - the [todos] table of the schema and the five SQL statements the
      route handlers send to it (module [Pg]);
    - the five Express route handlers of the server, written over an
      arbitrary [pool.query] (section [Routes]) and then run against the
      table (module [Server]);
    - the state container of the React [App] component, its three
      asynchronous operations and the derived, filtered list (module [App]).

    Strings are sequences of characters in the Latin-1 range: one [ascii]
    is one character, so [String.length] is the character count that
    [VARCHAR(n)] limits and that [slice]/[includes] see. *)

From Stdlib Require Import ZArith List Sorted Permutation String Ascii Bool Lia.
From Stdlib Require Import DecimalString DecimalZ DecimalFacts.
Import ListNotations.

Local Open Scope string_scope.
Local Open Scope Z_scope.

(** ** JavaScript values and string primitives *)

Module JS.

(** The JSON values a request body carries in the fields the handlers
    read.  A property that is not in the body reads as [JUndefined]. *)
Inductive jsval : Type :=
| JUndefined
| JNull
| JString (s : string)
| JBoolean (b : bool).

(** Destructuring with a default, [const { x = d } = obj]: the default is
    taken only for [undefined], not for [null]. *)
Definition with_default (d : jsval) (v : jsval) : jsval :=
  match v with
  | JUndefined => d
  | _ => v
  end.

(** [String.prototype.toLowerCase] on the Latin-1 range: A-Z and the
    accented capitals U+00C0-U+00DE (without the multiplication sign
    U+00D7) move 32 code points up. *)
Definition lower_char (c : ascii) : ascii :=
  let n := nat_of_ascii c in
  if ((65 <=? n) && (n <=? 90))%nat then ascii_of_nat (n + 32)
  else if ((192 <=? n) && (n <=? 222) && negb (n =? 215))%nat
       then ascii_of_nat (n + 32)
  else c.

Fixpoint toLowerCase (s : string) : string :=
  match s with
  | EmptyString => EmptyString
  | String c s' => String (lower_char c) (toLowerCase s')
  end.

(** [s.includes(t)]: [t] occurs in [s] at some position. *)
Fixpoint includes (s t : string) : bool :=
  String.prefix t s ||
  match s with
  | EmptyString => false
  | String _ s' => includes s' t
  end.

(** [a || b] on an optional string: [null], [undefined] and the empty
    string are falsy. *)
Definition or_else (v : option string) (d : string) : string :=
  match v with
  | None => d
  | Some EmptyString => d
  | Some s => s
  end.

(** Template-literal rendering of an integer, as in [`/todos/${id}`]. *)
Definition number_to_string (n : Z) : string :=
  NilZero.string_of_int (Z.to_int n).

End JS.

Export JS.

(** ** The record store *)

Module Pg.

(** One row of
    [CREATE TABLE todos (todo_id SERIAL PRIMARY KEY,
       title VARCHAR(255) NOT NULL, description VARCHAR(255) NOT NULL,
       priority VARCHAR(20) DEFAULT 'medium',
       category VARCHAR(50) DEFAULT 'general',
       completed BOOLEAN DEFAULT FALSE,
       created_at TIMESTAMP DEFAULT CURRENT_TIMESTAMP)].
    The two [NOT NULL] columns are plain strings, the nullable ones are
    options ([None] is SQL [NULL]).  No statement of the application
    writes [created_at], so it always holds the insertion time. *)
Record Row : Type := mkRow {
  todo_id : Z;
  title : string;
  description : string;
  priority : option string;
  category : option string;
  completed : option bool;
  created_at : Z
}.

(** The table in storage order, and the last value handed out by the
    sequence behind [SERIAL]. *)
Record Table : Type := mkTable {
  rows : list Row;
  last_value : Z
}.

Definition empty_table : Table := mkTable [] 0.

Inductive PgError : Type :=
| not_null_violation (column : string)
| string_data_right_truncation (width : nat)
| character_not_in_repertoire
| invalid_text_representation (type input : string)
| numeric_value_out_of_range (input : string)
| sequence_generator_limit_exceeded
| unique_violation.

Definition Result (A : Type) : Type := (PgError + A)%type.

Definition bind {A B : Type} (m : Result A) (k : A -> Result B) : Result B :=
  match m with
  | inl e => inl e
  | inr a => k a
  end.

Notation "x <- m ;; k" := (bind m (fun x => k))
  (at level 61, m at next level, right associativity).

(** [SERIAL] is a four-byte integer fed by a sequence that stops at the
    largest value of the type. *)
Definition int4_min : Z := - 2 ^ 31.
Definition int4_max : Z := 2 ^ 31 - 1.

Definition isspace (c : ascii) : bool :=
  let n := nat_of_ascii c in
  ((n =? 32) || ((9 <=? n) && (n <=? 13)))%nat.

Fixpoint ltrim (s : string) : string :=
  match s with
  | EmptyString => EmptyString
  | String c s' => if isspace c then ltrim s' else s
  end.

Fixpoint rtrim (s : string) : string :=
  match s with
  | EmptyString => EmptyString
  | String c s' =>
      match rtrim s' with
      | EmptyString => if isspace c then EmptyString else String c EmptyString
      | r => String c r
      end
  end.

Definition trim (s : string) : string := rtrim (ltrim s).

(** No white space anywhere in the text. *)
Fixpoint spaceless (s : string) : bool :=
  match s with
  | EmptyString => true
  | String c s' => negb (isspace c) && spaceless s'
  end.

Fixpoint has_nul (s : string) : bool :=
  match s with
  | EmptyString => false
  | String c s' => (nat_of_ascii c =? 0)%nat || has_nul s'
  end.

Fixpoint all_spaces (s : string) : bool :=
  match s with
  | EmptyString => true
  | String c s' => (nat_of_ascii c =? 32)%nat && all_spaces s'
  end.

(** Text bound to a [VARCHAR(n)] column: no NUL character; a value longer
    than [n] characters is an error unless the excess is all spaces, which
    is cut off. *)
Definition varchar (n : nat) (s : string) : Result string :=
  if has_nul s then inl character_not_in_repertoire
  else if (String.length s <=? n)%nat then inr s
  else if all_spaces (substring n (String.length s - n) s)
       then inr (substring 0 n s)
  else inl (string_data_right_truncation n).

Definition varchar_null (n : nat) (p : option string) : Result (option string) :=
  match p with
  | None => inr None
  | Some s => v <- varchar n s ;; inr (Some v)
  end.

(** An optionally signed run of decimal digits. *)
Definition signed_decimal (v : string) : option Decimal.int :=
  match v with
  | EmptyString => None
  | String c v' =>
      if Ascii.eqb c "+" then
        match v' with
        | EmptyString => None
        | String c' _ =>
            if Ascii.eqb c' "-" then None else NilZero.int_of_string v'
        end
      else NilZero.int_of_string v
  end.

(** Text bound to the integer key: optional surrounding white space, an
    optional sign, decimal digits, and the value within four bytes. *)
Definition int4in (s : string) : Result Z :=
  match signed_decimal (trim s) with
  | None => inl (invalid_text_representation "integer" s)
  | Some d =>
      let z := Z.of_int d in
      if (int4_min <=? z) && (z <=? int4_max) then inr z
      else inl (numeric_value_out_of_range s)
  end.

Definition int4in_null (p : option string) : Result (option Z) :=
  match p with
  | None => inr None
  | Some s => z <- int4in s ;; inr (Some z)
  end.

(** Text bound to the [BOOLEAN] column: case-insensitive [true]/[false],
    [yes]/[no] and their prefixes, [on]/[off], [1]/[0]. *)
Definition boolin (s : string) : Result bool :=
  let v := toLowerCase (trim s) in
  let bad := inl (invalid_text_representation "boolean" s) in
  match v with
  | String "t" _ => if String.prefix v "true" then inr true else bad
  | String "f" _ => if String.prefix v "false" then inr false else bad
  | String "y" _ => if String.prefix v "yes" then inr true else bad
  | String "n" _ => if String.prefix v "no" then inr false else bad
  | String "o" _ =>
      if String.eqb v "on" then inr true
      else if String.eqb v "of" || String.eqb v "off" then inr false
      else bad
  | String "1" EmptyString => inr true
  | String "0" EmptyString => inr false
  | _ => bad
  end.

Definition boolin_null (p : option string) : Result (option bool) :=
  match p with
  | None => inr None
  | Some s => b <- boolin s ;; inr (Some b)
  end.

(** The driver's [prepareValue]: [null] and [undefined] are sent as SQL
    [NULL], strings as they are, booleans as [true]/[false]. *)
Definition prepareValue (v : jsval) : option string :=
  match v with
  | JUndefined => None
  | JNull => None
  | JString s => Some s
  | JBoolean true => Some "true"
  | JBoolean false => Some "false"
  end.

(** The five statements of the server, each with its [$n] values. *)
Inductive Statement : Type :=
| INSERT_INTO_todos (v1 v2 v3 v4 : jsval)
| SELECT_FROM_todos
| SELECT_FROM_todos_WHERE_todo_id (v1 : jsval)
| UPDATE_todos_SET (v1 v2 v3 v4 v5 v6 : jsval)
| DELETE_FROM_todos_WHERE_todo_id (v1 : jsval).

Record QueryResult : Type := mkResult {
  result_rows : list Row;
  rowCount : nat
}.

Definition has_id (id : option Z) (r : Row) : bool :=
  match id with
  | None => false
  | Some n => todo_id r =? n
  end.

(** [INSERT INTO todos (title, description, priority, category)
     VALUES ($1, $2, $3, $4) RETURNING *].
    The values are converted to the column types when they are bound;
    then the row is formed, which draws the key from the sequence (a value
    drawn is not given back when the insert fails afterwards); then the
    [NOT NULL] and key constraints are checked.  The four listed columns
    take the bound values, [NULL] included; [completed] and [created_at]
    take their defaults. *)
Definition insert_todo (now : Z) (p1 p2 p3 p4 : option string) (t : Table)
  : Result QueryResult * Table :=
  match (c1 <- varchar_null 255 p1 ;;
         c2 <- varchar_null 255 p2 ;;
         c3 <- varchar_null 20 p3 ;;
         c4 <- varchar_null 50 p4 ;;
         inr (c1, c2, c3, c4)) with
  | inl e => (inl e, t)
  | inr (c1, c2, c3, c4) =>
      if int4_max <=? last_value t
      then (inl sequence_generator_limit_exceeded, t)
      else
        let id := last_value t + 1 in
        let drawn := mkTable (rows t) id in
        match c1, c2 with
        | None, _ => (inl (not_null_violation "title"), drawn)
        | Some _, None => (inl (not_null_violation "description"), drawn)
        | Some ti, Some de =>
            if existsb (has_id (Some id)) (rows t)
            then (inl unique_violation, drawn)
            else
              let r := mkRow id ti de c3 c4 (Some false) now in
              (inr (mkResult [r] 1), mkTable (rows t ++ [r]) id)
        end
  end.

(** [SELECT * FROM todos] *)
Definition select_all (t : Table) : Result QueryResult * Table :=
  (inr (mkResult (rows t) (List.length (rows t))), t).

(** [SELECT * FROM todos WHERE todo_id = $1] *)
Definition select_by_id (p1 : option string) (t : Table)
  : Result QueryResult * Table :=
  match int4in_null p1 with
  | inl e => (inl e, t)
  | inr id =>
      let found := filter (has_id id) (rows t) in
      (inr (mkResult found (List.length found)), t)
  end.

(** [UPDATE todos SET title = $1, description = $2, priority = $3,
     category = $4, completed = $5 WHERE todo_id = $6].
    A matching row gets a new version with all five columns overwritten,
    which the store writes after the rows that stay, so that a scan of
    the table meets it last; a [NULL] title or description is refused
    only when a row matches. *)
Definition update_todo (p1 p2 p3 p4 p5 p6 : option string) (t : Table)
  : Result QueryResult * Table :=
  match (c1 <- varchar_null 255 p1 ;;
         c2 <- varchar_null 255 p2 ;;
         c3 <- varchar_null 20 p3 ;;
         c4 <- varchar_null 50 p4 ;;
         c5 <- boolin_null p5 ;;
         id <- int4in_null p6 ;;
         inr (c1, c2, c3, c4, c5, id)) with
  | inl e => (inl e, t)
  | inr (c1, c2, c3, c4, c5, id) =>
      let n := List.length (filter (has_id id) (rows t)) in
      if (n =? 0)%nat then (inr (mkResult [] 0), t)
      else
        match c1, c2 with
        | None, _ => (inl (not_null_violation "title"), t)
        | Some _, None => (inl (not_null_violation "description"), t)
        | Some ti, Some de =>
            let set r := mkRow (todo_id r) ti de c3 c4 c5 (created_at r) in
            (inr (mkResult [] n),
             mkTable (filter (fun r => negb (has_id id r)) (rows t)
                      ++ map set (filter (has_id id) (rows t)))
                     (last_value t))
        end
  end.

(** [DELETE FROM todos WHERE todo_id = $1] *)
Definition delete_by_id (p1 : option string) (t : Table)
  : Result QueryResult * Table :=
  match int4in_null p1 with
  | inl e => (inl e, t)
  | inr id =>
      let n := List.length (filter (has_id id) (rows t)) in
      (inr (mkResult [] n),
       mkTable (filter (fun r => negb (has_id id r)) (rows t)) (last_value t))
  end.

(** [pool.query(text, values)] against the table, at store time [now]. *)
Definition query (now : Z) (s : Statement) (t : Table)
  : Result QueryResult * Table :=
  match s with
  | INSERT_INTO_todos v1 v2 v3 v4 =>
      insert_todo now (prepareValue v1) (prepareValue v2)
                      (prepareValue v3) (prepareValue v4) t
  | SELECT_FROM_todos => select_all t
  | SELECT_FROM_todos_WHERE_todo_id v1 => select_by_id (prepareValue v1) t
  | UPDATE_todos_SET v1 v2 v3 v4 v5 v6 =>
      update_todo (prepareValue v1) (prepareValue v2) (prepareValue v3)
                  (prepareValue v4) (prepareValue v5) (prepareValue v6) t
  | DELETE_FROM_todos_WHERE_todo_id v1 => delete_by_id (prepareValue v1) t
  end.

(** The sequence starts at 1 and every key in the table was drawn from
    it. *)
Definition keys_drawn (t : Table) : Prop :=
  0 <= last_value t /\
  Forall (fun r => todo_id r <= last_value t) (rows t).

End Pg.

Export Pg.

(** ** The HTTP API *)

(** The body of a POST or PUT request after [express.json()]. *)
Record ReqBody : Type := mkBody {
  b_title : jsval;
  b_description : jsval;
  b_priority : jsval;
  b_category : jsval;
  b_completed : jsval
}.

Inductive Request : Type :=
| POST_todos (body : ReqBody)
| GET_todos
| GET_todos_id (id : string)
| PUT_todos_id (id : string) (body : ReqBody)
| DELETE_todos_id (id : string).

(** What a handler sends: [res.json(x)] with a row, an array of rows, a
    message object or [undefined] (which sends no body), or
    [res.send(text)]. *)
Inductive ResBody : Type :=
| no_body
| text_body (s : string)
| json_row (r : Row)
| json_rows (l : list Row)
| json_message (message : string).

Record Response : Type := mkResponse {
  status : Z;
  body : ResBody
}.

Definition res_json (b : ResBody) : Response := mkResponse 200 b.

Definition first_row (l : list Row) : ResBody :=
  match l with
  | [] => no_body
  | r :: _ => json_row r
  end.

Section Routes.

(** The handlers only see [pool.query]: a store of any kind that either
    rejects with an error or resolves with a result. *)
Variables DB Err : Type.
Variable pool_query : Statement -> DB -> (Err + QueryResult) * DB.

(** A handled request: the response, what went to [console.error], and
    the store afterwards. *)
Record Handled : Type := mkHandled {
  response : Response;
  console : list Err;
  store : DB
}.

(** The [catch] block shared by the five handlers. *)
Definition server_error (err : Err) (db : DB) : Handled :=
  mkHandled (mkResponse 500 (text_body "Server Error")) [err] db.

Definition try_query (s : Statement) (db : DB)
           (k : QueryResult -> ResBody) : Handled :=
  match pool_query s db with
  | (inr result, db') => mkHandled (res_json (k result)) [] db'
  | (inl err, db') => server_error err db'
  end.

(** [app.post('/todos')] *)
Definition post_todos (b : ReqBody) (db : DB) : Handled :=
  let title := b_title b in
  let description := b_description b in
  let priority := with_default (JString "medium") (b_priority b) in
  let category := with_default (JString "general") (b_category b) in
  try_query (INSERT_INTO_todos title description priority category) db
            (fun newTodo => first_row (result_rows newTodo)).

(** [app.get('/todos')] *)
Definition get_todos (db : DB) : Handled :=
  try_query SELECT_FROM_todos db
            (fun allTodos => json_rows (result_rows allTodos)).

(** [app.get('/todos/:id')] *)
Definition get_todo (id : string) (db : DB) : Handled :=
  try_query (SELECT_FROM_todos_WHERE_todo_id (JString id)) db
            (fun todo => first_row (result_rows todo)).

(** [app.put('/todos/:id')] *)
Definition put_todo (id : string) (b : ReqBody) (db : DB) : Handled :=
  try_query (UPDATE_todos_SET (b_title b) (b_description b) (b_priority b)
                              (b_category b) (b_completed b) (JString id))
            db (fun _ => json_message "Todo updated successfully").

(** [app.delete('/todos/:id')] *)
Definition delete_todo (id : string) (db : DB) : Handled :=
  try_query (DELETE_FROM_todos_WHERE_todo_id (JString id)) db
            (fun _ => json_message "Todo deleted successfully").

Definition app (req : Request) (db : DB) : Handled :=
  match req with
  | POST_todos b => post_todos b db
  | GET_todos => get_todos db
  | GET_todos_id id => get_todo id db
  | PUT_todos_id id b => put_todo id b db
  | DELETE_todos_id id => delete_todo id db
  end.

(** The one statement each request sends. *)
Definition statement_of (req : Request) : Statement :=
  match req with
  | POST_todos b =>
      INSERT_INTO_todos (b_title b) (b_description b)
        (with_default (JString "medium") (b_priority b))
        (with_default (JString "general") (b_category b))
  | GET_todos => SELECT_FROM_todos
  | GET_todos_id id => SELECT_FROM_todos_WHERE_todo_id (JString id)
  | PUT_todos_id id b =>
      UPDATE_todos_SET (b_title b) (b_description b) (b_priority b)
                       (b_category b) (b_completed b) (JString id)
  | DELETE_todos_id id => DELETE_FROM_todos_WHERE_todo_id (JString id)
  end.

End Routes.

Arguments mkHandled {DB Err}.
Arguments response {DB Err}.
Arguments console {DB Err}.
Arguments store {DB Err}.
Arguments server_error {DB Err}.
Arguments try_query {DB Err}.
Arguments post_todos {DB Err}.
Arguments get_todos {DB Err}.
Arguments get_todo {DB Err}.
Arguments put_todo {DB Err}.
Arguments delete_todo {DB Err}.
Arguments app {DB Err}.

(** The server in front of the [todos] table. *)
Module Server.

Definition handle (now : Z) (req : Request) (t : Table)
  : Handled Table PgError :=
  app (Pg.query now) req t.

(** A run of requests, each arriving at its own store time. *)
Fixpoint serve (reqs : list (Z * Request)) (t : Table) : Table :=
  match reqs with
  | [] => t
  | (now, req) :: rest => serve rest (store (handle now req t))
  end.

(** The four fields the form submits. *)
Record TodoData : Type := mkData {
  d_title : string;
  d_description : string;
  d_priority : string;
  d_category : string
}.

Definition body_of (d : TodoData) : ReqBody :=
  mkBody (JString (d_title d)) (JString (d_description d))
         (JString (d_priority d)) (JString (d_category d)) JUndefined.

(** A body that holds only [title] and [description]. *)
Definition minimal_body (ti de : jsval) : ReqBody :=
  mkBody ti de JUndefined JUndefined JUndefined.

(** Text that a [VARCHAR(n)] column stores unchanged. *)
Definition fits (n : nat) (s : string) : Prop :=
  has_nul s = false /\ (String.length s <= n)%nat.

Definition valid_input (d : TodoData) : Prop :=
  fits 255 (d_title d) /\ fits 255 (d_description d) /\
  fits 20 (d_priority d) /\ fits 50 (d_category d).

(** The sequence can still hand out a key. *)
Definition sequence_open (t : Table) : Prop := last_value t < int4_max.

(** A value the column type takes when it is bound. *)
Definition text_accepted (n : nat) (v : jsval) : Prop :=
  exists c, varchar_null n (prepareValue v) = inr c.

Definition bool_accepted (v : jsval) : Prop :=
  exists c, boolin_null (prepareValue v) = inr c.

Definition body_accepted (b : ReqBody) : Prop :=
  text_accepted 255 (b_title b) /\ text_accepted 255 (b_description b) /\
  text_accepted 20 (b_priority b) /\ text_accepted 50 (b_category b) /\
  bool_accepted (b_completed b).

(** The row a successful insert of the four fields forms. *)
Definition new_row (now : Z) (t : Table) (d : TodoData) : Row :=
  mkRow (last_value t + 1) (d_title d) (d_description d)
        (Some (d_priority d)) (Some (d_category d)) (Some false) now.




End Server.

(** ** The UI state container *)

Module App.

Record State : Type := mkState {
  todos : list Row;
  loading : bool;
  error : option string;
  searchTerm : string;
  filterPriority : string;
  filterCategory : string
}.

(** The initial [useState] values. *)
Definition initial : State := mkState [] true None "" "all" "all".

(** How a call to the API gateway settles. *)
Inductive Settled (A : Type) : Type :=
| resolved (data : A)
| rejected.
Arguments resolved {A}.
Arguments rejected {A}.

Definition setTodos (f : list Row -> list Row) (st : State) : State :=
  mkState (f (todos st)) (loading st) (error st)
          (searchTerm st) (filterPriority st) (filterCategory st).

Definition setLoading (b : bool) (st : State) : State :=
  mkState (todos st) b (error st)
          (searchTerm st) (filterPriority st) (filterCategory st).

Definition setError (e : option string) (st : State) : State :=
  mkState (todos st) (loading st) e
          (searchTerm st) (filterPriority st) (filterCategory st).

Definition setSearchTerm (s : string) (st : State) : State :=
  mkState (todos st) (loading st) (error st)
          s (filterPriority st) (filterCategory st).

Definition setFilterPriority (s : string) (st : State) : State :=
  mkState (todos st) (loading st) (error st)
          (searchTerm st) s (filterCategory st).

Definition setFilterCategory (s : string) (st : State) : State :=
  mkState (todos st) (loading st) (error st)
          (searchTerm st) (filterPriority st) s.

(** [allTodos.sort((a, b) => b.todo_id - a.todo_id)]: a stable sort,
    larger keys first. *)
Fixpoint insert_desc (x : Row) (l : list Row) : list Row :=
  match l with
  | [] => [x]
  | y :: l' =>
      if todo_id x <? todo_id y then y :: insert_desc x l' else x :: l
  end.

Fixpoint sort_desc (l : list Row) : list Row :=
  match l with
  | [] => []
  | x :: l' => insert_desc x (sort_desc l')
  end.

Definition fetch_failed : string :=
  "Failed to fetch todos. Please check if the server is running.".
Definition create_failed : string :=
  "Failed to create todo. Please try again.".
Definition done_failed : string :=
  "Failed to mark todo as done. Please try again.".

(** [fetchTodos], up to the [await] and from it on. *)
Definition fetchTodos_begin (st : State) : State :=
  setError None (setLoading true st).

Definition fetchTodos_settle (r : Settled (list Row)) (st : State) : State :=
  match r with
  | resolved allTodos =>
      setLoading false (setTodos (fun _ => sort_desc allTodos) st)
  | rejected =>
      setLoading false (setError (Some fetch_failed) st)
  end.

Definition fetchTodos (r : Settled (list Row)) (st : State) : State :=
  fetchTodos_settle r (fetchTodos_begin st).

(** [addTodo] *)
Definition addTodo (r : Settled Row) (st : State) : State :=
  match r with
  | resolved newTodo => setTodos (fun prevTodos => newTodo :: prevTodos) st
  | rejected => setError (Some create_failed) st
  end.

(** [markAsDone] *)
Definition markAsDone (todoId : Z) (r : Settled unit) (st : State) : State :=
  match r with
  | resolved _ =>
      setTodos (filter (fun todo => negb (todo_id todo =? todoId))) st
  | rejected => setError (Some done_failed) st
  end.

(** The predicate of [todos.filter(...)] in [App]. *)
Definition matchesSearch (st : State) (todo : Row) : bool :=
  includes (toLowerCase (title todo)) (toLowerCase (searchTerm st)) ||
  includes (toLowerCase (description todo)) (toLowerCase (searchTerm st)).

Definition matchesPriority (st : State) (todo : Row) : bool :=
  String.eqb (filterPriority st) "all" ||
  String.eqb (or_else (priority todo) "medium") (filterPriority st).

Definition matchesCategory (st : State) (todo : Row) : bool :=
  String.eqb (filterCategory st) "all" ||
  String.eqb (or_else (category todo) "general") (filterCategory st).

Definition filteredTodos (st : State) : list Row :=
  filter (fun todo =>
            matchesSearch st todo && matchesPriority st todo
            && matchesCategory st todo)
         (todos st).

(** [arr.slice(0, n)] *)
Definition slice0 {A : Type} (n : nat) (l : list A) : list A := firstn n l.

(** What a render shows: the error banner, the two counters, and the
    list handed to [TodoList] (nothing while loading). *)
Record View : Type := mkView {
  banner : option string;
  totalTodos : nat;
  found : nat;
  list_view : option (list Row)
}.

Definition render (st : State) : View :=
  mkView (error st)
         (List.length (todos st))
         (List.length (filteredTodos st))
         (if loading st then None else Some (slice0 5 (filteredTodos st))).

(** An event of the container, with the way its API call settled. *)
Inductive Event : Type :=
| Fetch (r : Settled (list Row))
| Create (r : Settled Row)
| MarkDone (todoId : Z) (r : Settled unit).

Definition step (st : State) (e : Event) : State :=
  match e with
  | Fetch r => fetchTodos r st
  | Create r => addTodo r st
  | MarkDone todoId r => markAsDone todoId r st
  end.

Definition succeeded (e : Event) : bool :=
  match e with
  | Fetch (resolved _) | Create (resolved _) | MarkDone _ (resolved _) => true
  | _ => false
  end.

(** The fixed message of each kind of operation. *)
Definition failure_message (e : Event) : string :=
  match e with
  | Fetch _ => fetch_failed
  | Create _ => create_failed
  | MarkDone _ _ => done_failed
  end.

End App.

(** ** The visible list as the specification words it *)

Module Stated.

Import App.

(** [t] occurs in [s] as a substring. *)
Definition occurs_in (t s : string) : Prop :=
  exists pre post, s = pre ++ t ++ post.

(** Case-insensitive substring match of the search term on title or
    description. *)
Definition search_matches (st : State) (todo : Row) : Prop :=
  occurs_in (toLowerCase (searchTerm st)) (toLowerCase (title todo)) \/
  occurs_in (toLowerCase (searchTerm st)) (toLowerCase (description todo)).

(** The nullable column read with a default for an absent value only. *)
Definition absent_as (d : string) (v : option string) : string :=
  match v with
  | None => d
  | Some s => s
  end.

(** The filter with an absent priority counted as [medium] and an absent
    category as [general]. *)
Definition shown_absent (st : State) (todo : Row) : Prop :=
  search_matches st todo /\
  (filterPriority st <> "all" ->
   absent_as "medium" (priority todo) = filterPriority st) /\
  (filterCategory st <> "all" ->
   absent_as "general" (category todo) = filterCategory st).

(** The nullable column read with a default for an absent or empty
    value. *)
Definition blank_as (d : string) (v : option string) : string :=
  match v with
  | None => d
  | Some s => if (String.length s =? 0)%nat then d else s
  end.

Definition shown (st : State) (todo : Row) : Prop :=
  search_matches st todo /\
  (filterPriority st <> "all" ->
   blank_as "medium" (priority todo) = filterPriority st) /\
  (filterCategory st <> "all" ->
   blank_as "general" (category todo) = filterCategory st).

(** All three criteria at "match all". *)
Definition unfiltered (st : State) : Prop :=
  searchTerm st = "" /\ filterPriority st = "all" /\ filterCategory st = "all".

End Stated.

(** ** Sample data *)

Module Sample.

Import Server App.

Definition milk : TodoData := mkData "Buy milk" "2%" "low" "shopping".
Definition report : TodoData := mkData "Write report" "Q3 numbers" "high" "work".

Definition milk_row : Row :=
  mkRow 1 "Buy milk" "2%" (Some "low") (Some "shopping") (Some false) 100.

(** The table after one creation. *)
Definition one_row : Table := mkTable [milk_row] 1.

Definition missing_title : ReqBody :=
  minimal_body JUndefined (JString "Missing title").

Definition full_update : ReqBody :=
  mkBody (JString "Updated Title") (JString "Updated Description")
         (JString "low") (JString "updated") (JBoolean true).

Definition empty_fields : ReqBody :=
  mkBody (JString "") (JString "") JUndefined JUndefined JUndefined.

(** A creation that sends an empty priority, and the row it stores. *)
Definition blank_body : ReqBody :=
  mkBody (JString "Call home") (JString "before eight")
         (JString "") (JString "personal") JUndefined.

Definition blank_priority : Row :=
  mkRow 2 "Call home" "before eight" (Some "") (Some "personal")
        (Some false) 200.

Definition two_rows : Table := mkTable [milk_row; blank_priority] 2.

(** The container after fetching the two rows, with the priority filter
    set to [medium]. *)
Definition medium_only : State :=
  setFilterPriority "medium" (fetchTodos (resolved (rows two_rows)) initial).

(** Seven fetched todos, nothing filtered out. *)
Definition numbered (k : Z) : Row :=
  mkRow k "Todo" "Description" (Some "medium") (Some "general")
        (Some false) 300.

Definition seven : State :=
  mkState (map numbered [7; 6; 5; 4; 3; 2; 1]) false None "" "all" "all".

End Sample.

(** ** The store's key discipline *)

Module Keys.

(** The sequence is within the key type, every key in the table is a
    value it handed out, and no key occurs twice ([PRIMARY KEY]). *)
Definition well_keyed (t : Table) : Prop :=
  0 <= last_value t <= int4_max /\
  Forall (fun r => 1 <= todo_id r <= last_value t) (rows t) /\
  NoDup (map todo_id (rows t)).




End Keys.

(** ** The client API gateway *)

Module todoAPI.

Import App.

(** The HTTP client fulfils a call with [response.data] for a status
    from 200 to 299 and rejects it for any other status. *)
Definition settle (r : Response) : Settled ResBody :=
  if (200 <=? status r) && (status r <? 300) then resolved (body r)
  else rejected.

Definition call (now : Z) (req : Request) (t : Table)
  : Settled ResBody * Table :=
  let h := Server.handle now req t in
  (settle (response h), store h).

Definition getAllTodos (now : Z) (t : Table) : Settled ResBody * Table :=
  call now GET_todos t.

Definition createTodo (now : Z) (todoData : ReqBody) (t : Table)
  : Settled ResBody * Table :=
  call now (POST_todos todoData) t.

Definition updateTodo (now : Z) (id : Z) (todoData : ReqBody) (t : Table)
  : Settled ResBody * Table :=
  call now (PUT_todos_id (number_to_string id) todoData) t.

Definition deleteTodo (now : Z) (id : Z) (t : Table)
  : Settled ResBody * Table :=
  call now (DELETE_todos_id (number_to_string id)) t.

End todoAPI.

(** ** The form *)

Module TodoForm.

Import Server App.

(** [String.prototype.trim] on the Latin-1 range: tab to carriage
    return, space and no-break space are stripped from both ends. *)
Definition is_white_space (c : ascii) : bool :=
  let n := nat_of_ascii c in
  ((n =? 32) || ((9 <=? n) && (n <=? 13)) || (n =? 160))%nat.

Fixpoint trimStart (s : string) : string :=
  match s with
  | EmptyString => EmptyString
  | String c s' => if is_white_space c then trimStart s' else s
  end.

Fixpoint trimEnd (s : string) : string :=
  match s with
  | EmptyString => EmptyString
  | String c s' =>
      match trimEnd s' with
      | EmptyString =>
          if is_white_space c then EmptyString else String c EmptyString
      | r => String c r
      end
  end.

Definition trim (s : string) : string := trimEnd (trimStart s).

(** [!s.trim()]: the trimmed string is empty. *)
Definition blank (s : string) : bool := String.eqb (trim s) "".

(** Every character of the text is white space. *)
Fixpoint all_white (s : string) : bool :=
  match s with
  | EmptyString => true
  | String c s' => is_white_space c && all_white s'
  end.

Record FormState : Type := mkForm {
  formData : TodoData;
  isSubmitting : bool
}.

Definition cleared : TodoData := mkData "" "" "medium" "general".

Definition initial : FormState := mkForm cleared false.

(** The [name] of the four inputs. *)
Inductive Field : Type := title_input | description_input
                          | priority_select | category_select.

(** [handleChange] *)
Definition handleChange (name : Field) (value : string) (fs : FormState)
  : FormState :=
  let d := formData fs in
  mkForm
    match name with
    | title_input =>
        mkData value (d_description d) (d_priority d) (d_category d)
    | description_input =>
        mkData (d_title d) value (d_priority d) (d_category d)
    | priority_select =>
        mkData (d_title d) (d_description d) value (d_category d)
    | category_select =>
        mkData (d_title d) (d_description d) (d_priority d) value
    end
    (isSubmitting fs).

(** What a submit did: the alert it raised, the data it handed to
    [onAddTodo], and the form once the handler has run to its end. *)
Record Submission : Type := mkSubmission {
  alerted : option string;
  handed : option TodoData;
  form : FormState
}.

(** [handleSubmit], with the way the promise of [onAddTodo] settles. *)
Definition handleSubmit (onAddTodo : TodoData -> Settled unit)
           (fs : FormState) : Submission :=
  if blank (d_title (formData fs)) || blank (d_description (formData fs))
  then mkSubmission (Some "Please fill in both title and description")
                    None fs
  else
    match onAddTodo (formData fs) with
    | resolved _ =>
        mkSubmission None (Some (formData fs)) (mkForm cleared false)
    | rejected =>
        mkSubmission None (Some (formData fs)) (mkForm (formData fs) false)
    end.

End TodoForm.

(** ** The list component *)

Module TodoList.

Inductive PriorityBadge : Type := High | Medium | Low.

Inductive CategoryBadge : Type :=
  Work | Personal | Shopping | Health | Learning | General.

(** The chain of conditionals that picks the priority badge. *)
Definition priority_badge (todo : Row) : PriorityBadge :=
  if String.eqb (or_else (priority todo) "medium") "high" then High
  else if String.eqb (or_else (priority todo) "medium") "medium" then Medium
  else Low.

(** The chain of conditionals that picks the category badge. *)
Definition category_badge (todo : Row) : CategoryBadge :=
  let c := or_else (category todo) "general" in
  if String.eqb c "work" then Work
  else if String.eqb c "personal" then Personal
  else if String.eqb c "shopping" then Shopping
  else if String.eqb c "health" then Health
  else if String.eqb c "learning" then Learning
  else General.

(** One card: its number, texts and badges, and the key its Done button
    hands to [onMarkAsDone]. *)
Record Card : Type := mkCard {
  number : nat;
  heading : string;
  text : string;
  priority_label : PriorityBadge;
  category_label : CategoryBadge;
  done_key : Z
}.

Inductive Rendered : Type :=
| NoTodosYet
| Cards (cards : list Card).

(** [todos.map((todo, index) => ...)], from a given index on. *)
Fixpoint cards_from (index : nat) (todos : list Row) : list Card :=
  match todos with
  | [] => []
  | todo :: rest =>
      mkCard (index + 1) (title todo) (description todo)
             (priority_badge todo) (category_badge todo) (todo_id todo)
      :: cards_from (S index) rest
  end.

Definition TodoList (todos : list Row) : Rendered :=
  if (List.length todos =? 0)%nat then NoTodosYet
  else Cards (cards_from 0 todos).

End TodoList.

(** ** Form, container and gateway together *)

Module Client.

Import Server App TodoForm.

(** [addTodo] is an async function whose whole body is one [try]/[catch]
    that does not throw again: its promise is fulfilled whichever way
    the API call settles. *)
Definition addTodo_promise (r : Settled Row) : Settled unit := resolved tt.

(** A submit of the form inside [App], with the way [createTodo]
    settles. *)
Definition submit (r : Settled Row) (fs : FormState) (st : State)
  : Submission * State :=
  let s := handleSubmit (fun _ => addTodo_promise r) fs in
  (s, match handed s with
      | Some _ => addTodo r st
      | None => st
      end).

(** What [App] hands to the list component. *)
Definition list_component (st : State) : option TodoList.Rendered :=
  match list_view (render st) with
  | None => None
  | Some l => Some (TodoList.TodoList l)
  end.

(** The container shows the table: its list is the rows, largest key
    first. *)
Definition in_step (st : State) (t : Table) : Prop :=
  todos st = sort_desc (rows t).

(** Larger keys first. *)
Definition descending (l : list Row) : Prop :=
  StronglySorted (fun a b => todo_id b <= todo_id a) l.

End Client.

(** ** The migration script *)

Module Migrate.

(** [DELETE FROM todos WHERE title = $1] *)
Definition delete_by_title (p1 : option string) (t : Table)
  : Result QueryResult * Table :=
  match p1 with
  | None => (inr (mkResult [] 0), t)
  | Some s =>
      let n := List.length (filter (fun r => String.eqb (title r) s) (rows t)) in
      (inr (mkResult [] n),
       mkTable (filter (fun r => negb (String.eqb (title r) s)) (rows t))
               (last_value t))
  end.

(** [migrate], on a database without the table ([None]) or with the
    table in its seven columns, for which the four
    [ADD COLUMN IF NOT EXISTS] do nothing.  The result is the exit code
    of the process and the table left behind. *)
Definition migrate (now : Z) (db : option Table) : Z * Table :=
  let t := match db with
           | None => empty_table
           | Some t => t
           end in
  match insert_todo now (Some "Test Todo") (Some "Test Description")
                    (Some "high") (Some "health") t with
  | (inl _, t1) => (1, t1)
  | (inr _, t1) =>
      match delete_by_title (Some "Test Todo") t1 with
      | (inl _, t2) => (1, t2)
      | (inr _, t2) => (0, t2)
      end
  end.

End Migrate.

(** ** Further sample data *)

Module Scenario.

Import Server App Sample Keys TodoForm.


(** An update that sends a title and [completed] only. *)
Definition partial_update : ReqBody :=
  mkBody (JString "Partially Updated Title") JUndefined JUndefined
         JUndefined (JBoolean true).

Definition null_priority : ReqBody :=
  mkBody (JString "Call home") (JString "before eight") JNull JNull
         JUndefined.

(** The container after fetching the two sample rows. *)
Definition fetched : State :=
  fetchTodos (resolved (rows two_rows)) App.initial.

Definition report_row : Row :=
  mkRow 3 "Write report" "Q3 numbers" (Some "high") (Some "work")
        (Some false) 300.

(** A form with visible text, typed with surrounding spaces. *)
Definition typed : FormState :=
  mkForm (mkData "  Buy milk " "2%" "low" "shopping") false.

(** A form whose title is spaces only. *)
Definition spaces_only : FormState :=
  mkForm (mkData "   " "2%" "medium" "general") false.

Definition typed_row : Row :=
  mkRow 1 "  Buy milk " "2%" (Some "low") (Some "shopping") (Some false) 100.

(** A todo with a priority outside the three known ones. *)
Definition urgent : Row :=
  mkRow 4 "Pay rent" "today" (Some "urgent") (Some "general")
        (Some false) 400.

Definition low_only : State := mkState [urgent] false None "" "low" "all".

(** A table in which a user stored a todo titled like the test record
    of the migration. *)
Definition with_test_title : Table :=
  mkTable [milk_row;
           mkRow 2 "Test Todo" "mine" (Some "low") (Some "work")
                 (Some false) 150] 2.

(** A create without a title whose priority is longer than its column. *)
Definition long_priority : ReqBody :=
  mkBody JUndefined (JString "Missing title")
         (JString "extraordinarily-urgent") JUndefined JUndefined.

(** A table whose sequence has handed out its last key. *)
Definition exhausted : Table := mkTable [] int4_max.

End Scenario.

(** * Properties *)

(** ** Strings and integer keys *)

Section StringFacts.

Lemma prefix_append (t s : string) :
  String.prefix t s = true <-> exists post, s = t ++ post.
Proof.
  revert s; induction t as [|a t IH]; intros s; simpl.
  - destruct s; simpl; split; eauto.
  - destruct s as [|b s]; simpl.
    + split; [discriminate | intros [post H]; discriminate].
    + destruct (ascii_dec a b) as [->|Hne].
      * rewrite IH. split; intros [post H]; exists post.
        -- now rewrite H.
        -- now injection H.
      * split; [discriminate|].
        intros [post H]. injection H as H1 _. now elim Hne.
Qed.

Lemma includes_occurs (s t : string) :
  includes s t = true <-> Stated.occurs_in t s.
Proof.
  unfold Stated.occurs_in.
  induction s as [|c s IH].
  - cbn [includes]. rewrite orb_false_r, prefix_append. split.
    + intros [post H]. now exists EmptyString, post.
    + intros [pre [post H]]. destruct pre; simpl in H.
      * now exists post.
      * discriminate.
  - change (includes (String c s) t)
      with (String.prefix t (String c s) || includes s t).
    rewrite orb_true_iff, prefix_append, IH. split.
    + intros [[post H]|[pre [post H]]].
      * now exists EmptyString, post.
      * exists (String c pre), post. simpl. now rewrite H.
    + intros [pre [post H]]. destruct pre as [|c' pre]; simpl in H.
      * left. now exists post.
      * right. injection H as _ H. now exists pre, post.
Qed.

Lemma includes_empty (s : string) : includes s "" = true.
Proof. destruct s; reflexivity. Qed.

Lemma ltrim_spaceless s : spaceless s = true -> ltrim s = s.
Proof.
  destruct s as [|c s]; simpl; [reflexivity|].
  destruct (isspace c); simpl; [discriminate | reflexivity].
Qed.

Lemma rtrim_spaceless s : spaceless s = true -> rtrim s = s.
Proof.
  induction s as [|c s IH]; simpl; [reflexivity|].
  intros H. apply andb_true_iff in H as [Hc Hs].
  rewrite (IH Hs). destruct s; [|reflexivity].
  now destruct (isspace c).
Qed.

Lemma trim_spaceless s : spaceless s = true -> trim s = s.
Proof.
  intros H. unfold trim. rewrite (ltrim_spaceless _ H).
  now apply rtrim_spaceless.
Qed.

Lemma spaceless_uint d : spaceless (NilEmpty.string_of_uint d) = true.
Proof. induction d; simpl; auto. Qed.

Lemma spaceless_int d : spaceless (NilZero.string_of_int d) = true.
Proof.
  destruct d as [u|u]; simpl.
  - destruct u; try reflexivity; apply (spaceless_uint (_ _)).
  - destruct u; try reflexivity; apply (spaceless_uint (_ _)).
Qed.

Lemma signed_decimal_int d :
  signed_decimal (NilZero.string_of_int d)
  = NilZero.int_of_string (NilZero.string_of_int d).
Proof. destruct d as [u|u]; destruct u; reflexivity. Qed.

(** A key written into a path reads back as the same key. *)
Lemma int4in_number_to_string n :
  int4_min <= n <= int4_max -> int4in (number_to_string n) = inr n.
Proof.
  intros Hn. unfold int4in, number_to_string.
  rewrite (trim_spaceless _ (spaceless_int _)), signed_decimal_int.
  rewrite NilZero.isi.
  - rewrite DecimalZ.of_to.
    destruct (Z.leb_spec int4_min n); [|lia].
    destruct (Z.leb_spec n int4_max); [reflexivity|lia].
  - destruct n; simpl; try discriminate.
    intros [= H]. now apply (DecimalPos.Unsigned.to_uint_nonnil p).
  - destruct n; simpl; try discriminate.
    intros [= H]. now apply (DecimalPos.Unsigned.to_uint_nonnil p).
Qed.

End StringFacts.

(** ** The record store *)

(** Opens a handler up to the statement it runs on the table. *)
Ltac run_handler :=
  unfold Server.handle, app, post_todos, get_todos, get_todo, put_todo,
         delete_todo, try_query;
  cbn [Pg.query].

Section StoreFacts.

Import Server.

Lemma varchar_fits n s : fits n s -> varchar n s = inr s.
Proof.
  intros [Hnul Hlen]. unfold varchar. rewrite Hnul.
  now apply Nat.leb_le in Hlen as ->.
Qed.

Lemma table_eta t : mkTable (rows t) (last_value t) = t.
Proof. now destruct t. Qed.

Lemma no_row_has_id n l :
  (forall r, In r l -> todo_id r <> n) ->
  filter (has_id (Some n)) l = [] /\
  filter (fun r => negb (has_id (Some n) r)) l = l.
Proof.
  induction l as [|r l IH]; intros H; [now split|].
  assert (Hr : has_id (Some n) r = false)
    by (apply Z.eqb_neq, H; now left).
  destruct IH as [IH1 IH2]; [intros; apply H; now right|].
  cbn [filter]. rewrite Hr. cbn [negb]. now rewrite IH1, IH2.
Qed.

Lemma key_is_fresh t :
  keys_drawn t -> existsb (has_id (Some (last_value t + 1))) (rows t) = false.
Proof.
  intros [_ H]. induction H as [|r l Hr _ IH]; simpl; [reflexivity|].
  rewrite IH, orb_false_r. apply Z.eqb_neq. lia.
Qed.

(** A valid creation appends exactly the row formed from its fields. *)
Lemma create_valid now t d :
  valid_input d -> keys_drawn t -> sequence_open t ->
  handle now (POST_todos (body_of d)) t
  = mkHandled (res_json (json_row (new_row now t d))) []
              (mkTable (rows t ++ [new_row now t d]) (last_value t + 1)).
Proof.
  intros (Ht & Hd & Hp & Hc) Hk Hs.
  unfold handle, app, post_todos, try_query, body_of. simpl.
  unfold insert_todo. simpl.
  rewrite !varchar_fits by assumption. simpl.
  destruct (Z.leb_spec int4_max (last_value t)) as [Hfull|_].
  - unfold sequence_open in Hs. lia.
  - now rewrite (key_is_fresh _ Hk).
Qed.

(** Whatever the request and the answer, drawn keys stay drawn. *)
Lemma keys_drawn_handle now req t :
  keys_drawn t -> keys_drawn (store (handle now req t)).
Proof.
  intros Hk. pose proof Hk as [H0 Hall].
  destruct req as [b| |id|id b|id]; run_handler.
  - unfold insert_todo.
    destruct (_ <- _ ;; _) as [e|[[[c1 c2] c3] c4]]; [exact Hk|].
    destruct (int4_max <=? last_value t); [exact Hk|].
    assert (Hdrawn : keys_drawn (mkTable (rows t) (last_value t + 1))).
    { split; simpl; [lia|].
      eapply Forall_impl; [|exact Hall]. simpl. intros; lia. }
    destruct c1 as [ti|]; [|exact Hdrawn].
    destruct c2 as [de|]; [|exact Hdrawn].
    destruct (existsb _ _); [exact Hdrawn|].
    split; simpl; [lia|].
    apply Forall_app. split.
    + eapply Forall_impl; [|exact Hall]. simpl. intros; lia.
    + constructor; [simpl; lia | constructor].
  - exact Hk.
  - unfold select_by_id. now destruct (int4in_null _).
  - unfold update_todo.
    destruct (_ <- _ ;; _) as [e|[[[[[c1 c2] c3] c4] c5] n]]; [exact Hk|].
    destruct (_ =? _)%nat; [exact Hk|].
    destruct c1 as [ti|]; [|exact Hk].
    destruct c2 as [de|]; [|exact Hk].
    split; simpl; [exact H0|].
    rewrite Forall_forall in Hall.
    apply Forall_app. split; apply Forall_forall; intros r Hr.
    + apply filter_In in Hr as [Hr _]. now apply Hall.
    + apply in_map_iff in Hr as (r' & <- & Hr').
      apply filter_In in Hr' as [Hr' _]. cbn [todo_id]. now apply Hall.
  - unfold delete_by_id. destruct (int4in_null _) as [e|n]; [exact Hk|].
    split; simpl; [exact H0|].
    apply Forall_forall. intros r Hr. apply filter_In in Hr as [Hr _].
    revert r Hr. now apply Forall_forall.
Qed.

Lemma keys_drawn_serve reqs : forall t,
  keys_drawn t -> keys_drawn (serve reqs t).
Proof.
  induction reqs as [|[now req] reqs IH]; intros t Hk; simpl; [exact Hk|].
  now apply IH, keys_drawn_handle.
Qed.

Lemma keys_drawn_empty : keys_drawn empty_table.
Proof. split; simpl; [lia | constructor]. Qed.

End StoreFacts.

(** ** Creating a todo *)

Section CreateFacts.

Import Server.

(** What a creation that answers with a row has done. *)
Lemma create_inversion now t b r :
  body (response (handle now (POST_todos b) t)) = json_row r ->
  exists ti de pr ca,
    varchar_null 255 (prepareValue (b_title b)) = inr (Some ti) /\
    varchar_null 255 (prepareValue (b_description b)) = inr (Some de) /\
    varchar_null 20
      (prepareValue (with_default (JString "medium") (b_priority b)))
    = inr pr /\
    varchar_null 50
      (prepareValue (with_default (JString "general") (b_category b)))
    = inr ca /\
    r = mkRow (last_value t + 1) ti de pr ca (Some false) now /\
    handle now (POST_todos b) t
    = mkHandled (res_json (json_row r)) []
                (mkTable (rows t ++ [r]) (last_value t + 1)).
Proof.
  run_handler.
  unfold insert_todo.
  destruct (varchar_null 255 (prepareValue (b_title b))) as [e|c1];
    [discriminate|].
  destruct (varchar_null 255 (prepareValue (b_description b))) as [e|c2];
    [discriminate|].
  destruct (varchar_null 20 _) as [e|c3]; [discriminate|].
  destruct (varchar_null 50 _) as [e|c4]; [discriminate|].
  cbn [bind].
  destruct (int4_max <=? last_value t); [discriminate|].
  destruct c1 as [ti|]; [|discriminate].
  destruct c2 as [de|]; [|discriminate].
  destruct (existsb _ _); [discriminate|].
  cbn. intros [= <-]. now exists ti, de, c3, c4.
Qed.

(** A creation that lacks a bound title or description is refused and
    leaves the rows as they were. *)
Lemma create_refused now t b :
  prepareValue (b_title b) = None \/ prepareValue (b_description b) = None ->
  response (handle now (POST_todos b) t)
  = mkResponse 500 (text_body "Server Error") /\
  rows (store (handle now (POST_todos b) t)) = rows t.
Proof.
  intros H.
  run_handler.
  unfold insert_todo.
  destruct (_ <- _ ;; _) as [e|[[[c1 c2] c3] c4]] eqn:E; [now split|].
  assert (Hnull : c1 = None \/ c2 = None).
  { revert E. destruct H as [-> | ->]; cbn [varchar_null bind].
    - destruct (varchar_null 255 _); cbn [bind]; [discriminate|].
      destruct (varchar_null 20 _); cbn [bind]; [discriminate|].
      destruct (varchar_null 50 _); cbn [bind]; [discriminate|].
      intros [= <- _ _ _]. now left.
    - destruct (varchar_null 255 _); cbn [bind]; [discriminate|].
      destruct (varchar_null 20 _); cbn [bind]; [discriminate|].
      destruct (varchar_null 50 _); cbn [bind]; [discriminate|].
      intros [= _ <- _ _]. now right. }
  destruct (int4_max <=? last_value t); [now split|].
  destruct c1 as [ti|]; [|now split].
  destruct c2 as [de|]; [|now split].
  destruct Hnull; discriminate.
Qed.

(** C1. Round trip: for valid [title], [description], [priority] and
    [category], Create answers with a record holding the four values, a
    key drawn by the store and the store's time of creation, and
    Get-by-id with the returned key answers with that same record. *)
Theorem create_then_get_round_trip :
  forall (now later : Z) (t : Table) (d : TodoData),
    valid_input d -> keys_drawn t -> sequence_open t ->
    exists r t',
      handle now (POST_todos (body_of d)) t
      = mkHandled (res_json (json_row r)) [] t' /\
      title r = d_title d /\ description r = d_description d /\
      priority r = Some (d_priority d) /\
      category r = Some (d_category d) /\
      todo_id r = last_value t + 1 /\
      (forall r0, In r0 (rows t) -> todo_id r0 <> todo_id r) /\
      created_at r = now /\
      handle later (GET_todos_id (number_to_string (todo_id r))) t'
      = mkHandled (res_json (json_row r)) [] t'.
Proof.
  intros now later t d Hv Hk Hs.
  exists (new_row now t d),
         (mkTable (rows t ++ [new_row now t d]) (last_value t + 1)).
  rewrite (create_valid now t d Hv Hk Hs).
  assert (Hfresh : forall r0, In r0 (rows t) ->
                              todo_id r0 <> last_value t + 1).
  { destruct Hk as [_ Hall]. intros r0 Hin.
    rewrite Forall_forall in Hall. specialize (Hall r0 Hin). lia. }
  repeat split; try reflexivity; try exact Hfresh.
  run_handler. cbn [prepareValue].
  unfold select_by_id. cbn [int4in_null new_row todo_id].
  rewrite int4in_number_to_string.
  - cbn [bind rows]. rewrite filter_app.
    destruct (no_row_has_id _ _ Hfresh) as [-> _].
    cbn [filter has_id todo_id List.app]. now rewrite Z.eqb_refl.
  - destruct Hk as [H0 _]. unfold sequence_open in Hs.
    unfold int4_min, int4_max in *. lia.
Qed.

(** C3. Defaults: whenever Create with a body of only [title] and
    [description] answers with a record, that record has priority
    [medium] and category [general] and is the row added to the store;
    and it does answer with a record when the two values are valid. *)
Theorem create_defaults :
  forall (now : Z) (t : Table) (ti de : jsval),
    (forall r,
        body (response (handle now (POST_todos (minimal_body ti de)) t))
        = json_row r ->
        priority r = Some "medium" /\ category r = Some "general" /\
        rows (store (handle now (POST_todos (minimal_body ti de)) t))
        = (rows t ++ [r])%list) /\
    (forall s1 s2,
        ti = JString s1 -> de = JString s2 ->
        fits 255 s1 -> fits 255 s2 -> keys_drawn t -> sequence_open t ->
        exists r,
          response (handle now (POST_todos (minimal_body ti de)) t)
          = res_json (json_row r)).
Proof.
  intros now t ti de. split.
  - intros r Hr.
    destruct (create_inversion _ _ _ _ Hr)
      as (x & y & pr & ca & _ & _ & Hpr & Hca & -> & ->).
    cbn in Hpr, Hca. injection Hpr as <-. injection Hca as <-.
    now repeat split.
  - intros s1 s2 -> -> H1 H2 Hk Hs.
    exists (new_row now t (mkData s1 s2 "medium" "general")).
    assert (Hv : valid_input (mkData s1 s2 "medium" "general")).
    { unfold valid_input, fits in *. cbn. intuition lia. }
    change (handle now (POST_todos (minimal_body (JString s1) (JString s2))) t)
      with (handle now
              (POST_todos (body_of (mkData s1 s2 "medium" "general"))) t).
    now rewrite (create_valid now t _ Hv Hk Hs).
Qed.

(** C5 (amended). Missing-field rejection: a Create whose body lacks
    [title] or [description] is answered with status 500 and body
    [Server Error], adds no row, and leaves what List returns unchanged;
    the store error behind it is the NOT NULL violation whenever the
    values that were sent are ones the columns take and the sequence can
    hand out a key, and another store error otherwise. *)
Theorem create_without_required_field :
  forall (now : Z) (t : Table) (b : ReqBody),
    b_title b = JUndefined \/ b_description b = JUndefined ->
    response (handle now (POST_todos b) t)
    = mkResponse 500 (text_body "Server Error") /\
    rows (store (handle now (POST_todos b) t)) = rows t /\
    (forall later,
        response (handle later GET_todos (store (handle now (POST_todos b) t)))
        = response (handle later GET_todos t)) /\
    (text_accepted 255 (b_title b) ->
     text_accepted 255 (b_description b) ->
     text_accepted 20 (with_default (JString "medium") (b_priority b)) ->
     text_accepted 50 (with_default (JString "general") (b_category b)) ->
     sequence_open t ->
     exists column,
       console (handle now (POST_todos b) t) = [not_null_violation column]).
Proof.
  intros now t b H.
  assert (Hnone : prepareValue (b_title b) = None \/
                  prepareValue (b_description b) = None)
    by (destruct H as [-> | ->]; [now left | now right]).
  destruct (create_refused now t b Hnone) as [Hresp Hrows].
  repeat split; try assumption.
  - intros later. unfold handle at 1 3, app, get_todos, try_query.
    cbn [Pg.query select_all response res_json]. now rewrite Hrows.
  - intros [c1 H1] [c2 H2] [c3 H3] [c4 H4] Hs.
    run_handler.
    unfold insert_todo. rewrite H1, H2, H3, H4. cbn [bind].
    destruct (Z.leb_spec int4_max (last_value t)) as [Hfull|_];
      [unfold sequence_open in Hs; lia|].
    destruct c1 as [x|].
    + destruct c2 as [y|]; [|now exists "description"].
      exfalso. destruct Hnone as [Hn|Hn]; rewrite Hn in *.
      * cbn in H1. discriminate.
      * cbn in H2. discriminate.
    + now exists "title".
Qed.

(** C9 (amended). Whenever Create answers with a record, the request
    carried a title and a description other than [null], both were taken
    by the [VARCHAR(255)] columns, and the row added to the store holds
    exactly the text taken; nothing makes that text non-empty. *)
Theorem created_row_holds_bound_text :
  forall (now : Z) (t : Table) (b : ReqBody) (r : Row),
    body (response (handle now (POST_todos b) t)) = json_row r ->
    exists ti de,
      prepareValue (b_title b) = Some ti /\
      prepareValue (b_description b) = Some de /\
      varchar 255 ti = inr (title r) /\
      varchar 255 de = inr (description r) /\
      rows (store (handle now (POST_todos b) t)) = (rows t ++ [r])%list.
Proof.
  intros now t b r Hr.
  destruct (create_inversion _ _ _ _ Hr)
    as (x & y & pr & ca & Hx & Hy & _ & _ & -> & ->).
  destruct (prepareValue (b_title b)) as [ti|]; [|discriminate].
  destruct (prepareValue (b_description b)) as [de|]; [|discriminate].
  exists ti, de. cbn in Hx, Hy |- *.
  destruct (varchar 255 ti) as [e|x']; [discriminate|].
  destruct (varchar 255 de) as [e|y']; [discriminate|].
  cbn in Hx, Hy. injection Hx as <-. injection Hy as <-.
  now repeat split.
Qed.

End CreateFacts.

(** ** Failures of the store *)

(** C4. For each of the five operations and any failure of
    [pool.query], whatever the store behind it: the handler answers with
    status 500 and body [Server Error], which do not depend on the
    failure; the failure itself goes to the console only. *)
Theorem store_failure_is_server_error :
  forall (DB Err : Type)
         (pool_query : Statement -> DB -> (Err + QueryResult) * DB)
         (req : Request) (db db' : DB) (err : Err),
    pool_query (statement_of req) db = (inl err, db') ->
    app pool_query req db
    = mkHandled (mkResponse 500 (text_body "Server Error")) [err] db'.
Proof.
  intros DB Err pool_query req db db' err H.
  destruct req; cbn [statement_of] in H;
    unfold app, post_todos, get_todos, get_todo, put_todo, delete_todo,
           try_query;
    now rewrite H.
Qed.

(** Every request is answered, with 200 or with the fixed error. *)
Lemma every_request_is_answered
      (DB Err : Type)
      (pool_query : Statement -> DB -> (Err + QueryResult) * DB)
      (req : Request) (db : DB) :
  status (response (app pool_query req db)) = 200 \/
  response (app pool_query req db)
  = mkResponse 500 (text_body "Server Error").
Proof.
  destruct req;
    unfold app, post_todos, get_todos, get_todo, put_todo, delete_todo,
           try_query;
    match goal with
    | |- context [pool_query ?s db] =>
        destruct (pool_query s db) as [[e|res] db']
    end; cbn; auto.
Qed.

(** ** Keys that match no row *)

Section AbsentKey.

Import Server.

(** X20. For a path id that reads as a four-byte integer matching no
    row: Get-by-id answers 200 with an empty body, Delete answers 200
    with its success message, Update answers 200 with its success
    message when the values of its body are ones the columns take; none
    of the three logs anything or changes the store. *)
Theorem absent_key_is_not_an_error :
  forall (now : Z) (t : Table) (id : string) (n : Z) (b : ReqBody),
    int4in id = inr n ->
    (forall r, In r (rows t) -> todo_id r <> n) ->
    handle now (GET_todos_id id) t = mkHandled (res_json no_body) [] t /\
    handle now (DELETE_todos_id id) t
    = mkHandled (res_json (json_message "Todo deleted successfully")) [] t /\
    (body_accepted b ->
     handle now (PUT_todos_id id b) t
     = mkHandled (res_json (json_message "Todo updated successfully")) [] t).
Proof.
  intros now t id n b Hid Hnone.
  destruct (no_row_has_id _ _ Hnone) as [Hsel Hdel].
  run_handler. cbn [prepareValue].
  unfold select_by_id, delete_by_id, update_todo.
  cbn [int4in_null]. rewrite Hid. cbn [bind].
  rewrite Hsel, Hdel, table_eta. cbn [List.length first_row result_rows].
  repeat split.
  intros ([c1 H1] & [c2 H2] & [c3 H3] & [c4 H4] & [c5 H5]).
  rewrite H1, H2, H3, H4, H5. cbn [bind].
  rewrite Hsel. reflexivity.
Qed.

End AbsentKey.

(** ** Listing after a run of creations *)

Section ListFacts.

Import Server.










End ListFacts.

(** ** The UI state container *)

Section AppFacts.

Import App Stated.

Lemma or_else_blank v d : or_else v d = blank_as d v.
Proof. destruct v as [[|c s]|]; reflexivity. Qed.

Lemma matchesSearch_stated st todo :
  matchesSearch st todo = true <-> search_matches st todo.
Proof.
  unfold matchesSearch, search_matches.
  now rewrite orb_true_iff, !includes_occurs.
Qed.

Lemma matches_choice (f d : string) (v : option string) :
  String.eqb f "all" || String.eqb (or_else v d) f = true <->
  (f <> "all" -> blank_as d v = f).
Proof.
  rewrite orb_true_iff, !String.eqb_eq, or_else_blank. split.
  - intros [H|H] Hset; [contradiction | exact H].
  - intros H. destruct (String.eqb_spec f "all") as [Hall|Hset];
      [now left | right; now apply H].
Qed.

Lemma kept_iff_shown st todo :
  matchesSearch st todo && matchesPriority st todo && matchesCategory st todo
  = true <-> shown st todo.
Proof.
  unfold shown, matchesPriority, matchesCategory.
  now rewrite !andb_true_iff, matchesSearch_stated, !matches_choice, and_assoc.
Qed.

(** C7 (amended). The derived list keeps, in order, exactly the stored
    todos that pass all three criteria: the lower-cased search term
    occurs in the lower-cased title or description; the priority equals
    the priority filter when one is set, an absent or empty priority
    counting as [medium]; the category equals the category filter when
    one is set, an absent or empty category counting as [general].  With
    all three criteria at "match all" it is the whole stored list. *)
Theorem filtered_todos_are_the_shown_ones :
  forall st : State,
    (exists keep : Row -> bool,
        (forall todo, keep todo = true <-> shown st todo) /\
        filteredTodos st = filter keep (todos st)) /\
    (forall todo,
        In todo (filteredTodos st) <-> In todo (todos st) /\ shown st todo) /\
    (unfiltered st -> filteredTodos st = todos st).
Proof.
  intros st. split; [|split].
  - eexists. split; [intros todo; apply kept_iff_shown | reflexivity].
  - intros todo. unfold filteredTodos.
    now rewrite filter_In, kept_iff_shown.
  - intros (Hs & Hp & Hc). unfold filteredTodos.
    apply forallb_filter_id, forallb_forall. intros todo _.
    unfold matchesSearch, matchesPriority, matchesCategory.
    rewrite Hs, Hp, Hc. cbn [toLowerCase].
    now rewrite includes_empty.
Qed.

(** A failed operation stores the fixed message of its kind. *)
Lemma failed_operation_stores_message st e :
  succeeded e = false -> error (step st e) = Some (failure_message e).
Proof. destruct e as [[l|]|[r|]|id [u|]]; cbn; congruence. Qed.

(** A fetch clears the message when it starts, so a successful fetch
    leaves none. *)
Lemma successful_fetch_clears_error st allTodos :
  error (fetchTodos (resolved allTodos) st) = None.
Proof. reflexivity. Qed.

(** C8. A successful create and a successful mark-as-done leave the
    stored error message as it was, so a message stored by an earlier
    failure stays on display after them; only a fetch clears it. *)
Theorem successful_create_and_done_keep_error :
  forall (st : State) (newTodo : Row) (todoId : Z),
    error (addTodo (resolved newTodo) st) = error st /\
    error (markAsDone todoId (resolved tt) st) = error st /\
    banner (render (step (step initial (Create rejected))
                         (Create (resolved newTodo))))
    = Some create_failed.
Proof. intros st newTodo todoId. repeat split. Qed.

(** C10. The list view gets the first five entries of the filtered
    list and never more than five, while the "found" counter shows the
    length of the whole filtered list. *)
Theorem list_view_is_first_five :
  forall st : State,
    found (render st) = List.length (filteredTodos st) /\
    (loading st = false ->
     list_view (render st) = Some (slice0 5 (filteredTodos st))) /\
    (forall l,
        list_view (render st) = Some l ->
        l = firstn 5 (filteredTodos st) /\
        (List.length l <= 5)%nat /\
        ((5 < List.length (filteredTodos st))%nat -> List.length l = 5%nat)).
Proof.
  intros st. split; [reflexivity|]. split.
  - intros H. unfold render. cbn [list_view]. now rewrite H.
  - intros l. unfold render. cbn [list_view].
    destruct (loading st); [discriminate|].
    unfold slice0. intros H.
    assert (Hl : l = firstn 5 (filteredTodos st)) by congruence.
    rewrite Hl. split; [reflexivity|]. split.
    + apply firstn_le_length.
    + intros Hmore. apply firstn_length_le. lia.
Qed.

End AppFacts.

(** ** The properties on concrete requests *)

Section Instances.

Import Server App Stated Sample.
Import Scenario.

(** C1 on the first creation in an empty table. *)
Lemma create_then_get_round_trip_witness :
  valid_input milk /\ keys_drawn empty_table /\ sequence_open empty_table /\
  exists r t',
    handle 100 (POST_todos (body_of milk)) empty_table
    = mkHandled (res_json (json_row r)) [] t' /\
    title r = d_title milk /\ description r = d_description milk /\
    priority r = Some (d_priority milk) /\
    category r = Some (d_category milk) /\
    todo_id r = last_value empty_table + 1 /\
    (forall r0, In r0 (rows empty_table) -> todo_id r0 <> todo_id r) /\
    created_at r = 100 /\
    handle 101 (GET_todos_id (number_to_string (todo_id r))) t'
    = mkHandled (res_json (json_row r)) [] t'.
Proof.
  assert (Hv : valid_input milk)
    by (repeat split; try reflexivity; simpl; lia).
  assert (Hk : keys_drawn empty_table)
    by (split; simpl; [lia | constructor]).
  assert (Hs : sequence_open empty_table) by reflexivity.
  repeat (split; [assumption|]).
  exact (create_then_get_round_trip 100 101 empty_table milk Hv Hk Hs).
Defined.

(** C2. The code at the id [invalid], which is the key of no row: the
    store refuses the text as a value of the key column, so Get-by-id,
    Delete and Update are answered with the server error instead of 200;
    the refusal goes to the console and the table stays as it was. *)
Theorem invalid_id_is_a_server_error :
  filter (fun r => String.eqb (number_to_string (todo_id r)) "invalid")
         (rows one_row) = [] /\
  handle 101 (GET_todos_id "invalid") one_row
  = mkHandled (mkResponse 500 (text_body "Server Error"))
              [invalid_text_representation "integer" "invalid"] one_row /\
  handle 101 (DELETE_todos_id "invalid") one_row
  = mkHandled (mkResponse 500 (text_body "Server Error"))
              [invalid_text_representation "integer" "invalid"] one_row /\
  handle 101 (PUT_todos_id "invalid" full_update) one_row
  = mkHandled (mkResponse 500 (text_body "Server Error"))
              [invalid_text_representation "integer" "invalid"] one_row.
Proof. repeat split. Qed.

(** X20 on the key 999 of a table that holds key 1. *)
Lemma absent_key_is_not_an_error_witness :
  int4in "999" = inr 999 /\
  (forall r, In r (rows one_row) -> todo_id r <> 999) /\
  body_accepted full_update /\
  handle 101 (GET_todos_id "999") one_row
  = mkHandled (res_json no_body) [] one_row /\
  handle 101 (DELETE_todos_id "999") one_row
  = mkHandled (res_json (json_message "Todo deleted successfully")) []
              one_row /\
  handle 101 (PUT_todos_id "999" full_update) one_row
  = mkHandled (res_json (json_message "Todo updated successfully")) []
              one_row.
Proof.
  assert (Hid : int4in "999" = inr 999) by reflexivity.
  assert (Hnone : forall r, In r (rows one_row) -> todo_id r <> 999).
  { intros r [<-|[]]. simpl. lia. }
  assert (Hb : body_accepted full_update).
  { repeat split; eexists; reflexivity. }
  destruct (absent_key_is_not_an_error 101 one_row "999" 999 full_update
                                       Hid Hnone) as (Hget & Hdel & Hput).
  repeat (split; [assumption|]). exact (Hput Hb).
Defined.

(** C3 on a body with a title and a description only. *)
Lemma create_defaults_witness :
  fits 255 "Minimal Todo" /\ fits 255 "Minimal test todo" /\
  keys_drawn empty_table /\ sequence_open empty_table /\
  exists r,
    response (handle 100 (POST_todos (minimal_body (JString "Minimal Todo")
                                        (JString "Minimal test todo")))
                     empty_table)
    = res_json (json_row r) /\
    priority r = Some "medium" /\ category r = Some "general".
Proof.
  assert (H1 : fits 255 "Minimal Todo") by (split; [reflexivity | simpl; lia]).
  assert (H2 : fits 255 "Minimal test todo")
    by (split; [reflexivity | simpl; lia]).
  assert (Hk : keys_drawn empty_table)
    by (split; simpl; [lia | constructor]).
  assert (Hs : sequence_open empty_table) by reflexivity.
  repeat (split; [assumption|]).
  destruct (create_defaults 100 empty_table (JString "Minimal Todo")
                            (JString "Minimal test todo")) as [Hany Hsome].
  destruct (Hsome _ _ eq_refl eq_refl H1 H2 Hk Hs) as [r Hr].
  exists r. split; [exact Hr|].
  destruct (Hany r) as (Hp & Hc & _); [now rewrite Hr | now split].
Defined.

(** C4 on the table, for an insert that the store refuses. *)
Lemma store_failure_is_server_error_witness :
  Pg.query 100 (statement_of (POST_todos missing_title)) one_row
  = (inl (not_null_violation "title"), mkTable [milk_row] 2) /\
  app (Pg.query 100) (POST_todos missing_title) one_row
  = mkHandled (mkResponse 500 (text_body "Server Error"))
              [not_null_violation "title"] (mkTable [milk_row] 2).
Proof.
  split; [reflexivity|].
  apply store_failure_is_server_error. reflexivity.
Defined.

(** C5, as stated, fails in the cause it names: a Create without a
    title whose priority is too long for its column, and a Create without
    a title on an exhausted sequence, are answered with the server error
    and add no row, but the store error is not a NOT NULL violation. *)
Lemma missing_title_fails_for_another_reason :
  b_title long_priority = JUndefined /\
  handle 100 (POST_todos long_priority) one_row
  = mkHandled (mkResponse 500 (text_body "Server Error"))
              [string_data_right_truncation 20] one_row /\
  b_title missing_title = JUndefined /\
  handle 100 (POST_todos missing_title) exhausted
  = mkHandled (mkResponse 500 (text_body "Server Error"))
              [sequence_generator_limit_exceeded] exhausted /\
  (forall column,
      console (handle 100 (POST_todos long_priority) one_row)
      <> [not_null_violation column] /\
      console (handle 100 (POST_todos missing_title) exhausted)
      <> [not_null_violation column]).
Proof.
  split; [reflexivity|]. split; [reflexivity|]. split; [reflexivity|].
  split; [reflexivity|]. intros column. split; discriminate.
Qed.

(** C5 (amended) on a body without a title. *)
Lemma create_without_required_field_witness :
  (b_title missing_title = JUndefined \/
   b_description missing_title = JUndefined) /\
  response (handle 100 (POST_todos missing_title) one_row)
  = mkResponse 500 (text_body "Server Error") /\
  rows (store (handle 100 (POST_todos missing_title) one_row))
  = rows one_row /\
  console (handle 100 (POST_todos missing_title) one_row)
  = [not_null_violation "title"].
Proof.
  assert (H : b_title missing_title = JUndefined \/
              b_description missing_title = JUndefined)
    by (left; reflexivity).
  split; [exact H|].
  destruct (create_without_required_field 100 one_row missing_title H)
    as (Hresp & Hrows & _ & Hcause).
  repeat (split; [assumption|]).
  reflexivity.
Defined.


(** C7, as stated, fails: a todo stored with the empty priority is kept
    by the [medium] filter, although its priority is present and is not
    [medium]. *)
Lemma empty_priority_counts_as_medium :
  handle 200 (POST_todos blank_body) one_row
  = mkHandled (res_json (json_row blank_priority)) [] two_rows /\
  filteredTodos medium_only = [blank_priority] /\
  priority blank_priority = Some "" /\
  ~ shown_absent medium_only blank_priority.
Proof.
  split; [reflexivity|]. split; [reflexivity|]. split; [reflexivity|].
  intros (_ & Hp & _).
  assert (H : absent_as "medium" (priority blank_priority) = "medium")
    by (apply Hp; discriminate).
  discriminate H.
Qed.

(** C7 (amended) on seven todos with nothing filtered out. *)
Lemma filtered_todos_are_the_shown_ones_witness :
  unfiltered seven /\ filteredTodos seven = todos seven.
Proof.
  assert (H : unfiltered seven) by (repeat split).
  split; [exact H|].
  exact (proj2 (proj2 (filtered_todos_are_the_shown_ones seven)) H).
Defined.

(** C9, as stated, fails: a creation with an empty title and an empty
    description succeeds and stores them. *)
Lemma empty_title_is_accepted :
  exists r,
    handle 100 (POST_todos empty_fields) empty_table
    = mkHandled (res_json (json_row r)) [] (mkTable [r] 1) /\
    title r = "" /\ description r = "".
Proof. eexists. repeat split. Qed.

(** C9 (amended) on the first creation in an empty table. *)
Lemma created_row_holds_bound_text_witness :
  body (response (handle 100 (POST_todos (body_of milk)) empty_table))
  = json_row milk_row /\
  exists ti de,
    prepareValue (b_title (body_of milk)) = Some ti /\
    prepareValue (b_description (body_of milk)) = Some de /\
    varchar 255 ti = inr (title milk_row) /\
    varchar 255 de = inr (description milk_row) /\
    rows (store (handle 100 (POST_todos (body_of milk)) empty_table))
    = (rows empty_table ++ [milk_row])%list.
Proof.
  split; [reflexivity|].
  apply created_row_holds_bound_text. reflexivity.
Defined.

(** C10 on seven matching todos. *)
Lemma list_view_is_first_five_witness :
  loading seven = false /\
  (5 < List.length (filteredTodos seven))%nat /\
  found (render seven) = 7%nat /\
  list_view (render seven) = Some (map numbered [7; 6; 5; 4; 3]).
Proof.
  assert (Hl : loading seven = false) by reflexivity.
  assert (Hmore : (5 < List.length (filteredTodos seven))%nat)
    by (simpl; lia).
  destruct (list_view_is_first_five seven) as (Hfound & Hview & Hany).
  split; [exact Hl|]. split; [exact Hmore|].
  split; [rewrite Hfound; reflexivity|].
  rewrite (Hview Hl). reflexivity.
Defined.

End Instances.

(** * Further properties of the code *)

(** ** Keys in reachable tables *)

Section KeyFacts.

Import Server Keys.

Lemma well_keyed_empty : well_keyed empty_table.
Proof.
  unfold well_keyed, int4_max. cbn. repeat split; try lia; constructor.
Qed.

Lemma well_keyed_keys_drawn t : well_keyed t -> keys_drawn t.
Proof.
  intros ([H0 _] & Hall & _). split; [exact H0|].
  eapply Forall_impl; [|exact Hall]. cbn. intros; lia.
Qed.

Lemma nodup_snoc {A : Type} (l : list A) (x : A) :
  NoDup l -> ~ In x l -> NoDup (l ++ [x]).
Proof.
  induction 1 as [|y l Hy Hl IH]; intros Hx; cbn.
  - constructor; [intros [] | constructor].
  - constructor.
    + rewrite in_app_iff. intros [H|[H|[]]]; [now apply Hy|].
      apply Hx. now left.
    + apply IH. intros H. apply Hx. now right.
Qed.

Lemma nodup_keys_filter (p : Row -> bool) (l : list Row) :
  NoDup (map todo_id l) -> NoDup (map todo_id (filter p l)).
Proof.
  induction l as [|r l IH]; cbn; [auto|].
  intros H. inversion H as [|x xs Hr Hl]; subst.
  destruct (p r); cbn; [|now apply IH].
  constructor; [|now apply IH].
  intros Hin. apply Hr. apply in_map_iff in Hin as (r' & Hk & Hin).
  apply filter_In in Hin as [Hin _]. apply in_map_iff. now exists r'.
Qed.

Lemma filter_split_perm {A : Type} (p : A -> bool) (l : list A) :
  Permutation (filter (fun x => negb (p x)) l ++ filter p l) l.
Proof.
  induction l as [|x l IH]; cbn; [constructor|].
  destruct (p x); cbn.
  - symmetry. apply Permutation_cons_app. now symmetry.
  - now constructor.
Qed.

(** Whatever the request and the answer, the table stays well keyed. *)
Lemma well_keyed_handle now req t :
  well_keyed t -> well_keyed (store (handle now req t)).
Proof.
  intros Hw. pose proof Hw as ([H0 Hmax] & Hall & Hnd).
  destruct req as [b| |id|id b|id]; run_handler.
  - unfold insert_todo.
    destruct (_ <- _ ;; _) as [e|[[[c1 c2] c3] c4]]; [exact Hw|].
    destruct (Z.leb_spec int4_max (last_value t)) as [Hfull|Hopen];
      [exact Hw|].
    assert (Hdrawn : well_keyed (mkTable (rows t) (last_value t + 1))).
    { split; [cbn [last_value]; lia|]. split; [|exact Hnd].
      cbn [rows last_value].
      eapply Forall_impl; [|exact Hall]. cbn. intros; lia. }
    destruct c1 as [ti|]; [|exact Hdrawn].
    destruct c2 as [de|]; [|exact Hdrawn].
    destruct (existsb _ _); [exact Hdrawn|].
    cbn [store]. split; [cbn [last_value]; lia|].
    split; cbn [rows last_value].
    + apply Forall_app. split.
      * eapply Forall_impl; [|exact Hall]. cbn. intros; lia.
      * constructor; [cbn; lia | constructor].
    + rewrite map_app. cbn. apply nodup_snoc; [exact Hnd|].
      intros Hin. apply in_map_iff in Hin as (r & Hk & Hin).
      rewrite Forall_forall in Hall. specialize (Hall r Hin). lia.
  - exact Hw.
  - unfold select_by_id. now destruct (int4in_null _).
  - unfold update_todo.
    destruct (_ <- _ ;; _) as [e|[[[[[c1 c2] c3] c4] c5] n]]; [exact Hw|].
    destruct (_ =? _)%nat; [exact Hw|].
    destruct c1 as [ti|]; [|exact Hw].
    destruct c2 as [de|]; [|exact Hw].
    cbn [store]. split; [cbn [last_value]; lia|].
    split; cbn [rows last_value].
    + rewrite Forall_forall in Hall.
      apply Forall_app. split; apply Forall_forall; intros r Hr.
      * apply filter_In in Hr as [Hr _]. now apply Hall.
      * apply in_map_iff in Hr as (r' & <- & Hr').
        apply filter_In in Hr' as [Hr' _]. cbn [todo_id]. now apply Hall.
    + rewrite map_app, map_map. cbn [todo_id].
      change (NoDup (map todo_id
                         (filter (fun r => negb (has_id n r)) (rows t))
                     ++ map todo_id (filter (has_id n) (rows t)))).
      rewrite <- map_app.
      eapply Permutation_NoDup; [|exact Hnd].
      symmetry. apply Permutation_map, filter_split_perm.
  - unfold delete_by_id. destruct (int4in_null _) as [e|n]; [exact Hw|].
    cbn [store]. split; [cbn [last_value]; lia|].
    split; cbn [rows last_value].
    + apply Forall_forall. intros r Hr. apply filter_In in Hr as [Hr _].
      revert r Hr. now apply Forall_forall.
    + now apply nodup_keys_filter.
Qed.

(** X1. In every table reached from the empty one by any run of
    requests, the sequence is within the key type, all keys lie between
    1 and its last value, and no two rows share a key. *)
Theorem reachable_tables_are_well_keyed :
  forall (reqs : list (Z * Request)), well_keyed (serve reqs empty_table).
Proof.
  intros reqs. generalize well_keyed_empty. generalize empty_table.
  induction reqs as [|[now req] reqs IH]; intros t Hw; cbn; [exact Hw|].
  now apply IH, well_keyed_handle.
Qed.

Lemma only_row_with_key (l : list Row) (r : Row) :
  NoDup (map todo_id l) -> In r l ->
  filter (has_id (Some (todo_id r))) l = [r].
Proof.
  induction l as [|x l IH]; intros Hnd Hin; [destruct Hin|].
  cbn [map] in Hnd. inversion Hnd as [|k ks Hx Hl]; subst.
  cbn [filter has_id]. destruct Hin as [->|Hin].
  - rewrite Z.eqb_refl. f_equal.
    apply no_row_has_id. intros r' Hr' Heq. apply Hx.
    rewrite <- Heq. now apply in_map.
  - assert (Hne : (todo_id x =? todo_id r) = false).
    { apply Z.eqb_neq. intros Heq. apply Hx. rewrite Heq. now apply in_map. }
    rewrite Hne. now apply IH.
Qed.

Lemma key_in_range t r :
  well_keyed t -> In r (rows t) -> int4_min <= todo_id r <= int4_max.
Proof.
  intros ([H0 Hmax] & Hall & _) Hin.
  rewrite Forall_forall in Hall. specialize (Hall r Hin).
  unfold int4_min in *. lia.
Qed.

Lemma get_stored_row now t r :
  well_keyed t -> In r (rows t) ->
  handle now (GET_todos_id (number_to_string (todo_id r))) t
  = mkHandled (res_json (json_row r)) [] t.
Proof.
  intros Hw Hin. run_handler. cbn [prepareValue].
  unfold select_by_id. cbn [int4in_null].
  rewrite (int4in_number_to_string _ (key_in_range t r Hw Hin)). cbn [bind].
  destruct Hw as (_ & _ & Hnd).
  now rewrite (only_row_with_key _ _ Hnd Hin).
Qed.

(** X2. Get-by-id finds every stored row: for a well keyed table and any
    of its rows, the request with the row's key written in decimal is
    answered 200 with exactly that row, and the table stays as it is. *)
Theorem get_finds_every_row :
  forall (now : Z) (t : Table) (r : Row),
    well_keyed t -> In r (rows t) ->
    handle now (GET_todos_id (number_to_string (todo_id r))) t
    = mkHandled (res_json (json_row r)) [] t.
Proof. intros now t r. apply get_stored_row. Qed.

Lemma last_value_handle now req t :
  last_value t <= last_value (store (handle now req t)).
Proof.
  destruct req as [b| |id|id b|id]; run_handler; unfold server_error.
  - unfold insert_todo.
    destruct (_ <- _ ;; _) as [e|[[[c1 c2] c3] c4]];
      [cbn [store]; lia|].
    destruct (int4_max <=? last_value t); [cbn [store]; lia|].
    destruct c1 as [ti|]; [|cbn [store last_value]; lia].
    destruct c2 as [de|]; [|cbn [store last_value]; lia].
    destruct (existsb _ _); cbn [store last_value]; lia.
  - cbn [store select_all]. lia.
  - unfold select_by_id. destruct (int4in_null _); cbn [store]; lia.
  - unfold update_todo.
    destruct (_ <- _ ;; _) as [e|[[[[[c1 c2] c3] c4] c5] n]];
      [cbn [store]; lia|].
    destruct (_ =? _)%nat; [cbn [store]; lia|].
    destruct c1 as [ti|]; [|cbn [store]; lia].
    destruct c2 as [de|]; cbn [store last_value]; lia.
  - unfold delete_by_id.
    destruct (int4in_null _); cbn [store last_value]; lia.
Qed.

Lemma last_value_serve reqs : forall t,
  last_value t <= last_value (serve reqs t).
Proof.
  induction reqs as [|[now req] reqs IH]; intros t; cbn; [lia|].
  etransitivity; [apply (last_value_handle now req)|apply IH].
Qed.

(** X3. Keys are never reused: a row that was in the table at some
    point, even if deleted since, has a smaller key than any row a later
    Create answers with, whatever requests came in between. *)
Theorem keys_are_never_reused :
  forall (t : Table) (r0 : Row) (reqs : list (Z * Request))
         (now : Z) (b : ReqBody) (r : Row),
    keys_drawn t -> In r0 (rows t) ->
    body (response (handle now (POST_todos b) (serve reqs t))) = json_row r ->
    todo_id r0 < todo_id r.
Proof.
  intros t r0 reqs now b r [_ Hall] Hin Hr.
  destruct (create_inversion _ _ _ _ Hr)
    as (ti & de & pr & ca & _ & _ & _ & _ & -> & _).
  cbn [todo_id]. rewrite Forall_forall in Hall. specialize (Hall r0 Hin).
  pose proof (last_value_serve reqs t). lia.
Qed.

End KeyFacts.

(** ** Update, Delete and explicit nulls *)

Section WriteFacts.

Import Server Keys.

Lemma some_row_has_id n l r :
  In r l -> todo_id r = n ->
  (List.length (filter (has_id (Some n)) l) =? 0)%nat = false.
Proof.
  intros Hin Hk.
  assert (H : In r (filter (has_id (Some n)) l)).
  { apply filter_In. split; [exact Hin|]. cbn. now apply Z.eqb_eq. }
  now destruct (filter (has_id (Some n)) l).
Qed.


(** X5. An update that leaves out the title or the description of a
    stored row is refused: the answer is the server error and the table
    stays exactly as it was, so nothing of the row is overwritten and
    nothing is kept from the request. *)
Theorem partial_update_is_refused :
  forall (now : Z) (t : Table) (id : string) (n : Z) (b : ReqBody),
    int4in id = inr n ->
    (exists r, In r (rows t) /\ todo_id r = n) ->
    prepareValue (b_title b) = None \/
    prepareValue (b_description b) = None ->
    response (handle now (PUT_todos_id id b) t)
    = mkResponse 500 (text_body "Server Error") /\
    store (handle now (PUT_todos_id id b) t) = t.
Proof.
  intros now t id n b Hid (r & Hin & Hk) Hnone.
  run_handler. cbn [prepareValue]. unfold update_todo.
  destruct (_ <- _ ;; _) as [e|[[[[[c1 c2] c3] c4] c5] k]] eqn:E;
    [now split|].
  assert (Hc : (c1 = None \/ c2 = None) /\ k = Some n).
  { revert E. cbn [int4in_null]. rewrite Hid.
    destruct (varchar_null 255 (prepareValue (b_title b))) as [e|x] eqn:E1;
      cbn [bind]; [discriminate|].
    destruct (varchar_null 255 (prepareValue (b_description b)))
      as [e|y] eqn:E2; cbn [bind]; [discriminate|].
    destruct (varchar_null 20 _); cbn [bind]; [discriminate|].
    destruct (varchar_null 50 _); cbn [bind]; [discriminate|].
    destruct (boolin_null _); cbn [bind]; [discriminate|].
    intros [= <- <- _ _ _ <-]. split; [|reflexivity].
    destruct Hnone as [Hn|Hn]; rewrite Hn in *; cbn in E1, E2.
    - left. congruence.
    - right. congruence. }
  destruct Hc as [Hc ->].
  rewrite (some_row_has_id _ _ r Hin Hk).
  destruct c1 as [ti|]; [|now split].
  destruct c2 as [de|]; [|now split].
  destruct Hc; discriminate.
Qed.

(** X6. Delete: for an id that reads as a key, Delete answers with its
    success message and removes the rows with that key and no others,
    keeping the order and the sequence; afterwards Get-by-id on the id is
    answered with an empty body, List with the remaining rows, and a
    second Delete with the same success message and no further change. *)
Theorem delete_removes_row_once :
  forall (now later : Z) (t : Table) (id : string) (n : Z),
    int4in id = inr n ->
    exists t',
      handle now (DELETE_todos_id id) t
      = mkHandled (res_json (json_message "Todo deleted successfully")) [] t' /\
      rows t' = filter (fun r => negb (todo_id r =? n)) (rows t) /\
      last_value t' = last_value t /\
      handle later (GET_todos_id id) t'
      = mkHandled (res_json no_body) [] t' /\
      handle later GET_todos t'
      = mkHandled
          (res_json (json_rows (filter (fun r => negb (todo_id r =? n))
                                       (rows t)))) [] t' /\
      handle later (DELETE_todos_id id) t'
      = mkHandled (res_json (json_message "Todo deleted successfully")) [] t'.
Proof.
  intros now later t id n Hid.
  assert (Hgone : forall r,
             In r (filter (fun r => negb (has_id (Some n) r)) (rows t)) ->
             todo_id r <> n).
  { intros r Hr. apply filter_In in Hr as [_ Hr]. cbn in Hr.
    apply negb_true_iff in Hr. now apply Z.eqb_neq. }
  destruct (no_row_has_id _ _ Hgone) as [Hsel Hdel].
  run_handler. cbn [prepareValue].
  unfold delete_by_id, select_by_id, select_all.
  cbn [int4in_null]. rewrite Hid. cbn [bind].
  eexists. split; [reflexivity|]. cbn [rows last_value].
  rewrite Hsel, Hdel.
  repeat split.
Qed.

(** X7. The defaults of Create are for left-out fields only: when the
    body carries [priority: null] (or [category: null]), any record
    Create answers with has a NULL priority (category), not the default;
    and for a valid title and description Create does answer with a
    record. *)
Theorem explicit_null_is_stored :
  forall (now : Z) (t : Table) (b : ReqBody),
    (forall r,
        body (response (handle now (POST_todos b) t)) = json_row r ->
        (b_priority b = JNull -> priority r = None) /\
        (b_category b = JNull -> category r = None)) /\
    (forall s1 s2,
        b = mkBody (JString s1) (JString s2) JNull JNull JUndefined ->
        fits 255 s1 -> fits 255 s2 -> keys_drawn t -> sequence_open t ->
        exists r,
          response (handle now (POST_todos b) t) = res_json (json_row r) /\
          priority r = None /\ category r = None).
Proof.
  intros now t b. split.
  - intros r Hr.
    destruct (create_inversion _ _ _ _ Hr)
      as (x & y & pr & ca & _ & _ & Hpr & Hca & -> & _).
    split; intros Hnull; rewrite Hnull in *; cbn in Hpr, Hca |- *; congruence.
  - intros s1 s2 -> H1 H2 Hk Hs.
    run_handler. cbn [b_title b_description b_priority b_category
                      with_default prepareValue].
    unfold insert_todo. cbn [varchar_null].
    rewrite !varchar_fits by assumption. cbn [bind].
    destruct (Z.leb_spec int4_max (last_value t)) as [Hfull|_];
      [unfold sequence_open in Hs; lia|].
    rewrite (key_is_fresh _ Hk).
    eexists. repeat split.
Qed.

End WriteFacts.

(** ** Sorting the fetched list *)

Section SortFacts.

Import App Client.

Lemma insert_desc_perm x l : Permutation (insert_desc x l) (x :: l).
Proof.
  induction l as [|y l IH]; cbn; [reflexivity|].
  destruct (todo_id x <? todo_id y); [|reflexivity].
  rewrite IH. apply perm_swap.
Qed.

Lemma sort_desc_perm l : Permutation (sort_desc l) l.
Proof.
  induction l as [|x l IH]; cbn; [reflexivity|].
  rewrite insert_desc_perm. now constructor.
Qed.

Lemma insert_desc_descending x l :
  descending l -> descending (insert_desc x l).
Proof.
  unfold descending.
  induction 1 as [|y l Hl IH Hy]; cbn.
  - constructor; constructor.
  - destruct (Z.ltb_spec (todo_id x) (todo_id y)) as [Hlt|Hge].
    + constructor; [exact IH|].
      apply Forall_forall. intros z Hz.
      apply (Permutation_in _ (insert_desc_perm x l)) in Hz.
      destruct Hz as [<-|Hz]; [lia|].
      rewrite Forall_forall in Hy. now apply Hy.
    + constructor; [now constructor|].
      constructor; [lia|].
      eapply Forall_impl; [|exact Hy]. cbn. intros; lia.
Qed.

Lemma sort_desc_descending l : descending (sort_desc l).
Proof.
  induction l as [|x l IH]; cbn; [constructor|].
  now apply insert_desc_descending.
Qed.

(** A row with the largest key, added last, sorts to the front. *)
Lemma sort_desc_newest l r :
  (forall x, In x l -> todo_id x < todo_id r) ->
  sort_desc (l ++ [r]) = r :: sort_desc l.
Proof.
  induction l as [|x l IH]; intros H; cbn; [reflexivity|].
  rewrite IH by (intros; apply H; now right). cbn.
  assert (Hx : (todo_id x <? todo_id r) = true)
    by (apply Z.ltb_lt, H; now left).
  now rewrite Hx.
Qed.

Lemma insert_desc_front x l :
  Forall (fun y => todo_id y <= todo_id x) l -> insert_desc x l = x :: l.
Proof.
  destruct 1 as [|y l Hy _]; cbn; [reflexivity|].
  destruct (Z.ltb_spec (todo_id x) (todo_id y)); [lia|reflexivity].
Qed.

Lemma filter_insert_desc (p : Row -> bool) x l :
  descending l ->
  filter p (insert_desc x l)
  = if p x then insert_desc x (filter p l) else filter p l.
Proof.
  unfold descending.
  induction 1 as [|y l Hl IH Hy]; cbn.
  - now destruct (p x).
  - destruct (Z.ltb_spec (todo_id x) (todo_id y)) as [Hlt|Hge]; cbn.
    + rewrite IH. destruct (p y), (p x); cbn; try reflexivity.
      destruct (Z.ltb_spec (todo_id x) (todo_id y)); [reflexivity|lia].
    + destruct (p x); [|reflexivity].
      symmetry. apply insert_desc_front.
      assert (Hall : Forall (fun z => todo_id z <= todo_id x) (y :: l)).
      { constructor; [lia|].
        eapply Forall_impl; [|exact Hy]. cbn. intros; lia. }
      apply Forall_forall. intros z Hz.
      rewrite Forall_forall in Hall. apply Hall.
      change (In z (filter p (y :: l))) in Hz.
      now apply filter_In in Hz as [Hz _].
Qed.

(** Removing rows before or after sorting gives the same list. *)
Lemma filter_sort_desc (p : Row -> bool) l :
  filter p (sort_desc l) = sort_desc (filter p l).
Proof.
  induction l as [|x l IH]; cbn; [reflexivity|].
  rewrite (filter_insert_desc p x _ (sort_desc_descending l)), IH.
  now destruct (p x).
Qed.

(** X8. A successful fetch replaces the list by the fetched todos in
    descending order of key: the new list holds exactly the fetched
    todos, each as often as it was fetched, with no key below a later
    one; nothing of the previous list is kept, the loading flag is off
    and no error is stored. *)
Theorem fetch_sorts_newest_first :
  forall (st : State) (allTodos : list Row),
    Permutation (todos (fetchTodos (resolved allTodos) st)) allTodos /\
    descending (todos (fetchTodos (resolved allTodos) st)) /\
    loading (fetchTodos (resolved allTodos) st) = false /\
    error (fetchTodos (resolved allTodos) st) = None.
Proof.
  intros st allTodos. cbn.
  split; [apply sort_desc_perm|].
  split; [apply sort_desc_descending|]. now split.
Qed.

End SortFacts.

(** ** The gateway and the container over the table *)

Section ClientFacts.

Import Server Keys App Client todoAPI.

Lemma settle_resolved r d :
  settle r = resolved d -> body r = d /\ 200 <= status r < 300.
Proof.
  unfold settle.
  destruct (Z.leb_spec 200 (status r)); cbn; [|discriminate].
  destruct (Z.ltb_spec (status r) 300); [|discriminate].
  intros [= <-]. split; [reflexivity | lia].
Qed.

(** Every answer is a 200 that carries no text, or the fixed error. *)
Lemma answer_shape (DB Err : Type)
      (pool_query : Statement -> DB -> (Err + QueryResult) * DB)
      (req : Request) (db : DB) :
  (status (response (app pool_query req db)) = 200 /\
   forall s, body (response (app pool_query req db)) <> text_body s) \/
  response (app pool_query req db)
  = mkResponse 500 (text_body "Server Error").
Proof.
  destruct req;
    unfold app, post_todos, get_todos, get_todo, put_todo, delete_todo,
           try_query;
    match goal with
    | |- context [pool_query ?s db] =>
        destruct (pool_query s db) as [[e|res] db']
    end; cbn [response status body res_json server_error];
    try (now right); left; (split; [reflexivity|]); intros s;
    try discriminate; destruct (result_rows res); discriminate.
Qed.

(** X9. The gateway fulfils a call exactly when the server answered
    200, with the body of that answer, and rejects it exactly when the
    server answered with its error; so the text [Server Error] never
    reaches a caller as data.  The table afterwards is the one the
    handler left. *)
Theorem gateway_rejects_on_server_error :
  forall (now : Z) (req : Request) (t : Table),
    snd (call now req t) = store (handle now req t) /\
    ((status (response (handle now req t)) = 200 /\
      fst (call now req t) = resolved (body (response (handle now req t))) /\
      forall s, body (response (handle now req t)) <> text_body s) \/
     (response (handle now req t)
      = mkResponse 500 (text_body "Server Error") /\
      fst (call now req t) = rejected)).
Proof.
  intros now req t. split; [reflexivity|].
  unfold call, settle, handle. cbn [fst].
  destruct (answer_shape _ _ (Pg.query now) req t) as [[H200 Hbody]|H500].
  - left. rewrite H200. now repeat split.
  - right. rewrite H500. now split.
Qed.

Lemma createTodo_resolved now b t d t' :
  createTodo now b t = (resolved d, t') ->
  exists r,
    d = json_row r /\
    todo_id r = last_value t + 1 /\
    t' = mkTable (rows t ++ [r]) (last_value t + 1).
Proof.
  unfold createTodo, call. cbv zeta. intros [= Hd Ht].
  apply settle_resolved in Hd as [Hd Hs].
  revert Hd Hs Ht. run_handler. unfold insert_todo.
  destruct (_ <- _ ;; _) as [e|[[[c1 c2] c3] c4]]; [cbn; lia|].
  destruct (int4_max <=? last_value t); [cbn; lia|].
  destruct c1 as [ti|]; [|cbn; lia].
  destruct c2 as [de|]; [|cbn; lia].
  destruct (existsb _ _); [cbn; lia|].
  cbn. intros <- _ <-. eexists. repeat split.
Qed.

(** X10. [createTodo] is fulfilled only with a row, the one the store
    just appended under the next key; when it is rejected the rows of the
    table are the ones before the call. *)
Theorem createTodo_yields_the_stored_row :
  forall (now : Z) (b : ReqBody) (t : Table),
    (exists r,
        createTodo now b t
        = (resolved (json_row r),
           mkTable (rows t ++ [r]) (last_value t + 1)) /\
        todo_id r = last_value t + 1) \/
    (fst (createTodo now b t) = rejected /\
     rows (snd (createTodo now b t)) = rows t).
Proof.
  intros now b t.
  destruct (createTodo now b t) as [[d|] t'] eqn:E.
  - left. destruct (createTodo_resolved _ _ _ _ _ E) as (r & -> & Hk & ->).
    now exists r.
  - right. split; [reflexivity|]. cbn [snd].
    revert E. unfold createTodo, call, settle. run_handler.
    unfold insert_todo.
    destruct (_ <- _ ;; _) as [e|[[[c1 c2] c3] c4]];
      [cbn; now intros [= <-]|].
    destruct (int4_max <=? last_value t); [cbn; now intros [= <-]|].
    destruct c1 as [ti|]; [|cbn; now intros [= <-]].
    destruct c2 as [de|]; [|cbn; now intros [= <-]].
    destruct (existsb _ _); [cbn; now intros [= <-]|].
    cbn. discriminate.
Qed.

(** X11. The prepend of [addTodo] agrees with a fresh fetch: if the
    container shows the table (its rows, largest key first) and
    [createTodo] is fulfilled with a row, then after [addTodo] the
    container shows the table as the server left it. *)
Theorem create_keeps_container_in_step :
  forall (now : Z) (b : ReqBody) (t t' : Table) (st : State) (r : Row),
    keys_drawn t -> in_step st t ->
    createTodo now b t = (resolved (json_row r), t') ->
    in_step (addTodo (resolved r) st) t'.
Proof.
  intros now b t t' st r [_ Hall] Hstep E.
  destruct (createTodo_resolved _ _ _ _ _ E) as (r' & [= <-] & Hk & ->).
  unfold in_step in *. cbn [addTodo setTodos todos rows]. rewrite Hstep.
  symmetry. apply sort_desc_newest. intros x Hx.
  rewrite Forall_forall in Hall. specialize (Hall x Hx). lia.
Qed.

(** X12. The removal of [markAsDone] agrees with a fresh fetch: if the
    container shows a well keyed table, then for any todo on display
    [deleteTodo] with its key is fulfilled, and after [markAsDone] the
    todo is gone and the container shows the table as the server left
    it. *)
Theorem done_keeps_container_in_step :
  forall (now : Z) (t : Table) (st : State) (todo : Row),
    well_keyed t -> in_step st t -> In todo (todos st) ->
    exists t',
      deleteTodo now (todo_id todo) t
      = (resolved (json_message "Todo deleted successfully"), t') /\
      in_step (markAsDone (todo_id todo) (resolved tt) st) t' /\
      ~ In todo (todos (markAsDone (todo_id todo) (resolved tt) st)).
Proof.
  intros now t st todo Hw Hstep Hin.
  unfold in_step in Hstep.
  assert (Hrow : In todo (rows t)).
  { rewrite Hstep in Hin.
    now apply (Permutation_in _ (sort_desc_perm (rows t))). }
  unfold deleteTodo, call, settle. run_handler. cbn [prepareValue].
  unfold delete_by_id. cbn [int4in_null].
  rewrite (int4in_number_to_string _ (key_in_range t todo Hw Hrow)).
  cbn [bind response store status body res_json].
  eexists. split; [reflexivity|].
  unfold in_step. cbn [markAsDone setTodos todos rows]. split.
  - rewrite Hstep. apply filter_sort_desc.
  - intros H. apply filter_In in H as [_ H].
    now rewrite Z.eqb_refl in H.
Qed.

End ClientFacts.

(** ** The form *)

Section FormFacts.

Import Server App TodoForm Client.

Lemma trimStart_all_white s : trimStart s = "" <-> all_white s = true.
Proof.
  induction s as [|c s IH]; cbn; [tauto|].
  destruct (is_white_space c); cbn; [exact IH|]. split; discriminate.
Qed.

Lemma trimStart_head s :
  trimStart s = "" \/
  exists c r, trimStart s = String c r /\ is_white_space c = false.
Proof.
  induction s as [|c s IH]; cbn; [now left|].
  destruct (is_white_space c) eqn:E; [exact IH|].
  right. now exists c, s.
Qed.

Lemma trimEnd_head c r :
  is_white_space c = false -> trimEnd (String c r) <> "".
Proof.
  intros H. cbn. rewrite H. now destruct (trimEnd r).
Qed.

(** The test of the form is: all characters are white space. *)
Lemma blank_all_white s : blank s = all_white s.
Proof.
  unfold blank, trim.
  destruct (trimStart_head s) as [E|(c & r & E & Hc)].
  - rewrite E. cbn. symmetry. now apply trimStart_all_white.
  - rewrite E.
    destruct (String.eqb_spec (trimEnd (String c r)) "") as [H|_];
      [now apply trimEnd_head in H|].
    destruct (all_white s) eqn:Hw; [|reflexivity].
    apply trimStart_all_white in Hw. congruence.
Qed.

Lemma all_white_append s1 s2 :
  all_white (s1 ++ s2) = all_white s1 && all_white s2.
Proof.
  induction s1 as [|c s1 IH]; cbn; [reflexivity|].
  now rewrite IH, andb_assoc.
Qed.

Lemma all_spaces_white s : all_spaces s = true -> all_white s = true.
Proof.
  induction s as [|c s IH]; cbn; [reflexivity|].
  intros H. apply andb_true_iff in H as [Hc Hs].
  rewrite (IH Hs), andb_true_r. unfold is_white_space.
  now rewrite Hc.
Qed.

Lemma substring_all s : substring 0 (String.length s) s = s.
Proof. induction s as [|c s IH]; cbn; [reflexivity | now rewrite IH]. Qed.

Lemma substring_split n : forall s,
  (n <= String.length s)%nat ->
  s = substring 0 n s ++ substring n (String.length s - n) s.
Proof.
  induction n as [|n IH]; intros s Hn.
  - rewrite Nat.sub_0_r, substring_all. now destruct s.
  - destruct s as [|c s]; cbn in Hn; [lia|].
    cbn. f_equal. apply IH. lia.
Qed.

(** Text that a column takes keeps a character that is not white space,
    and is stored as it is when it is within the width. *)
Lemma varchar_keeps_text n s v :
  varchar n s = inr v ->
  (all_white s = false -> all_white v = false) /\
  ((String.length s <= n)%nat -> v = s).
Proof.
  unfold varchar. destruct (has_nul s); [discriminate|].
  destruct (Nat.leb_spec (String.length s) n) as [Hle|Hgt].
  - intros [= <-]. now split.
  - destruct (all_spaces _) eqn:Hsp; [|discriminate].
    intros [= <-]. split; [|lia].
    intros Hw. rewrite (substring_split n s) in Hw by lia.
    rewrite all_white_append, (all_spaces_white _ Hsp), andb_true_r in Hw.
    exact Hw.
Qed.

(** X13. The form hands a submission to [onAddTodo] exactly when both
    the title and the description hold a character that is not white
    space, and then hands over the data as typed, untrimmed; otherwise it
    raises the alert, makes no call and keeps what was typed.  After a
    call the form is cleared if the promise was fulfilled and kept if it
    was rejected, and it is no longer submitting. *)
Theorem submit_needs_visible_text :
  forall (onAddTodo : TodoData -> Settled unit) (fs : FormState),
    (all_white (d_title (formData fs)) = true \/
     all_white (d_description (formData fs)) = true ->
     handleSubmit onAddTodo fs
     = mkSubmission (Some "Please fill in both title and description")
                    None fs) /\
    (all_white (d_title (formData fs)) = false ->
     all_white (d_description (formData fs)) = false ->
     alerted (handleSubmit onAddTodo fs) = None /\
     handed (handleSubmit onAddTodo fs) = Some (formData fs) /\
     isSubmitting (form (handleSubmit onAddTodo fs)) = false /\
     (forall u, onAddTodo (formData fs) = resolved u ->
                formData (form (handleSubmit onAddTodo fs)) = cleared) /\
     (onAddTodo (formData fs) = rejected ->
      formData (form (handleSubmit onAddTodo fs)) = formData fs)).
Proof.
  intros onAddTodo fs. unfold handleSubmit. rewrite !blank_all_white. split.
  - intros [-> | ->]; [reflexivity | now rewrite orb_true_r].
  - intros -> ->. cbn [orb].
    destruct (onAddTodo (formData fs)) as [u|]; cbn;
      repeat split; intros; congruence.
Qed.

(** X14. Inside [App] a submission with visible title and description
    always clears the form, because [addTodo] swallows the failure of
    the API call: when [createTodo] is rejected the typed data is gone
    from the form, the list is unchanged and the create error is stored. *)
Theorem failed_create_clears_the_form :
  forall (r : Settled Row) (fs : FormState) (st : State),
    all_white (d_title (formData fs)) = false ->
    all_white (d_description (formData fs)) = false ->
    form (fst (submit r fs st)) = mkForm cleared false /\
    handed (fst (submit r fs st)) = Some (formData fs) /\
    snd (submit r fs st) = addTodo r st /\
    (r = rejected ->
     todos (snd (submit r fs st)) = todos st /\
     error (snd (submit r fs st)) = Some create_failed).
Proof.
  intros r fs st Ht Hd. unfold submit, handleSubmit.
  rewrite !blank_all_white, Ht, Hd. cbn.
  split; [reflexivity|]. split; [reflexivity|]. split; [reflexivity|].
  intros ->. now split.
Qed.

(** X15. A row created through the form has a title and a description
    with a character that is not white space, and holds them exactly as
    typed when they are within 255 characters. *)
Theorem form_created_rows_have_visible_text :
  forall (onAddTodo : TodoData -> Settled unit) (fs : FormState)
         (d : TodoData) (now : Z) (t : Table) (r : Row),
    handed (handleSubmit onAddTodo fs) = Some d ->
    body (response (handle now (POST_todos (body_of d)) t)) = json_row r ->
    d = formData fs /\
    all_white (title r) = false /\ all_white (description r) = false /\
    ((String.length (d_title d) <= 255)%nat -> title r = d_title d) /\
    ((String.length (d_description d) <= 255)%nat ->
     description r = d_description d).
Proof.
  intros onAddTodo fs d now t r Hh Hr.
  assert (Hd : d = formData fs /\
               all_white (d_title d) = false /\
               all_white (d_description d) = false).
  { revert Hh. unfold handleSubmit. rewrite !blank_all_white.
    destruct (all_white (d_title (formData fs))) eqn:E1;
      [cbn; discriminate|].
    destruct (all_white (d_description (formData fs))) eqn:E2;
      [cbn; discriminate|].
    cbn. destruct (onAddTodo (formData fs)); cbn; intros [= <-]; auto. }
  destruct Hd as (Hd & Hw1 & Hw2). split; [exact Hd|].
  destruct (create_inversion _ _ _ _ Hr)
    as (ti & de & pr & ca & H1 & H2 & _ & _ & -> & _).
  cbn in H1, H2 |- *.
  destruct (varchar 255 (d_title d)) as [e|v1] eqn:E1; [discriminate|].
  destruct (varchar 255 (d_description d)) as [e|v2] eqn:E2; [discriminate|].
  cbn in H1, H2. injection H1 as <-. injection H2 as <-.
  destruct (varchar_keeps_text _ _ _ E1) as [Ha Hb].
  destruct (varchar_keeps_text _ _ _ E2) as [Hc He].
  auto.
Qed.

End FormFacts.

(** ** The list component *)

Section ListComponentFacts.

Import App TodoList Client.

Lemma or_else_given p d : p <> "" -> or_else (Some p) d = p.
Proof. destruct p; [congruence | reflexivity]. Qed.

(** X16. Priority badge and priority filter: the [high] and [medium]
    filters keep exactly the todos that wear the High and Medium badge;
    the [low] filter keeps only todos that wear Low, but a todo whose
    priority is some other text (not empty, not one of the three) wears
    Low and is not kept by the [low] filter. *)
Theorem priority_badge_and_filter :
  forall (st : State) (todo : Row),
    (filterPriority st = "high" ->
     (matchesPriority st todo = true <-> priority_badge todo = High)) /\
    (filterPriority st = "medium" ->
     (matchesPriority st todo = true <-> priority_badge todo = Medium)) /\
    (filterPriority st = "low" ->
     matchesPriority st todo = true -> priority_badge todo = Low) /\
    (forall p,
        priority todo = Some p ->
        p <> "" -> p <> "low" -> p <> "medium" -> p <> "high" ->
        priority_badge todo = Low /\
        (filterPriority st = "low" -> matchesPriority st todo = false)).
Proof.
  intros st todo. unfold matchesPriority, priority_badge.
  split; [|split; [|split]].
  - intros ->. change (String.eqb "high" "all") with false. cbn [orb].
    destruct (String.eqb_spec (or_else (priority todo) "medium") "high")
      as [Heq|Hne]; [now split|].
    split; [discriminate|].
    destruct (String.eqb_spec (or_else (priority todo) "medium") "medium");
      discriminate.
  - intros ->. change (String.eqb "medium" "all") with false. cbn [orb].
    destruct (String.eqb_spec (or_else (priority todo) "medium") "medium")
      as [Heq|Hne]; [rewrite Heq; now split|].
    split; [discriminate|].
    destruct (String.eqb_spec (or_else (priority todo) "medium") "high");
      discriminate.
  - intros ->. change (String.eqb "low" "all") with false. cbn [orb].
    intros H. apply String.eqb_eq in H. now rewrite H.
  - intros p Hp H0 Hl Hm Hh. rewrite Hp, (or_else_given p _ H0).
    split.
    + destruct (String.eqb_spec p "high"); [contradiction|].
      destruct (String.eqb_spec p "medium"); [contradiction|reflexivity].
    + intros ->. change (String.eqb "low" "all") with false. cbn [orb].
      now apply String.eqb_neq.
Qed.

Lemma cards_from_number i l :
  map number (cards_from i l) = seq (i + 1) (List.length l).
Proof.
  revert i; induction l as [|todo l IH]; intros i; cbn; [reflexivity|].
  f_equal. now rewrite IH.
Qed.

Lemma cards_from_rows i l :
  map done_key (cards_from i l) = map todo_id l /\
  map heading (cards_from i l) = map title l /\
  map priority_label (cards_from i l) = map priority_badge l.
Proof.
  revert i; induction l as [|todo l IH]; intros i; cbn; [now repeat split|].
  destruct (IH (S i)) as (-> & -> & ->). now repeat split.
Qed.

(** X17. What the list component shows once loading is over: the empty
    state [No todos yet] exactly when no todo passes the filters, even if
    todos are stored; otherwise one card for each of the first five
    filtered todos, in order, numbered from 1, whose Done button carries
    the key of its own todo. *)
Theorem list_component_numbers_cards :
  forall st : State,
    loading st = false ->
    (filteredTodos st = [] <-> list_component st = Some NoTodosYet) /\
    (forall cards,
        list_component st = Some (Cards cards) ->
        map number cards
        = seq 1 (Nat.min 5 (List.length (filteredTodos st))) /\
        map done_key cards = map todo_id (firstn 5 (filteredTodos st)) /\
        map heading cards = map title (firstn 5 (filteredTodos st)) /\
        map priority_label cards
        = map priority_badge (firstn 5 (filteredTodos st))).
Proof.
  intros st Hl. unfold list_component, render. cbn [list_view].
  rewrite Hl. unfold slice0, TodoList. split.
  - destruct (filteredTodos st) as [|x l]; cbn; [now split|].
    split; discriminate.
  - intros cards.
    destruct (Nat.eqb_spec (List.length (firstn 5 (filteredTodos st))) 0);
      [discriminate|].
    intros H.
    assert (Hc : cards = cards_from 0 (firstn 5 (filteredTodos st)))
      by congruence.
    rewrite Hc, cards_from_number, length_firstn.
    split; [reflexivity|]. apply cards_from_rows.
Qed.

End ListComponentFacts.

(** ** The migration script *)

Section MigrateFacts.

Import Server Migrate.

(** X18. On a table that exists, with keys drawn from a sequence that is
    not exhausted, the migration exits with 0, uses up one key, and
    leaves the rows without every row titled [Test Todo]: its own test
    record and any such todo that was stored before; all other rows stay,
    in order. *)
Theorem migrate_deletes_test_titles :
  forall (now : Z) (t : Table),
    keys_drawn t -> sequence_open t ->
    migrate now (Some t)
    = (0, mkTable (filter (fun r => negb (String.eqb (title r) "Test Todo"))
                          (rows t))
                  (last_value t + 1)) /\
    (forall r,
        In r (rows (snd (migrate now (Some t)))) <->
        In r (rows t) /\ title r <> "Test Todo").
Proof.
  intros now t Hk Hs.
  assert (E : migrate now (Some t)
              = (0, mkTable
                      (filter (fun r => negb (String.eqb (title r) "Test Todo"))
                              (rows t))
                      (last_value t + 1))).
  { unfold migrate, insert_todo. cbn [varchar_null].
    rewrite !varchar_fits by (split; [reflexivity | cbn; lia]).
    cbn [bind].
    destruct (Z.leb_spec int4_max (last_value t)) as [Hfull|_];
      [unfold sequence_open in Hs; lia|].
    rewrite (key_is_fresh _ Hk). unfold delete_by_title.
    cbn [rows last_value]. rewrite filter_app. cbn. now rewrite List.app_nil_r. }
  split; [exact E|].
  intros r. rewrite E. cbn [snd rows]. rewrite filter_In.
  rewrite negb_true_iff, String.eqb_neq. tauto.
Qed.

(** X19. The migration at its edges: without a table it creates one,
    exits with 0 and leaves it empty with one key used; on a table whose
    sequence is exhausted its test insert fails, it exits with 1 and the
    table is as before. *)
Theorem migrate_edge_cases :
  forall now : Z,
    migrate now None = (0, mkTable [] 1) /\
    (forall t, int4_max <= last_value t -> migrate now (Some t) = (1, t)).
Proof.
  intros now. split; [reflexivity|].
  intros t Hfull. unfold migrate, insert_todo. cbn [varchar_null].
  rewrite !varchar_fits by (split; [reflexivity | cbn; lia]).
  cbn [bind].
  destruct (Z.leb_spec int4_max (last_value t)); [reflexivity|lia].
Qed.

End MigrateFacts.

(** ** The further properties on concrete data *)

Section FurtherInstances.

Import Server Keys App todoAPI TodoForm TodoList Client Migrate.
Import Sample Scenario.

Lemma two_rows_well_keyed : well_keyed two_rows.
Proof.
  split; [unfold int4_max; cbn; lia|]. split.
  - repeat constructor; cbn; lia.
  - cbn. repeat constructor; cbn; intuition discriminate.
Qed.

Lemma two_rows_keys_drawn : keys_drawn two_rows.
Proof. apply well_keyed_keys_drawn, two_rows_well_keyed. Qed.

(** Get-by-id on the second of two stored rows. *)
Lemma get_finds_every_row_witness :
  well_keyed two_rows /\ In blank_priority (rows two_rows) /\
  handle 300 (GET_todos_id (number_to_string (todo_id blank_priority)))
         two_rows
  = mkHandled (res_json (json_row blank_priority)) [] two_rows.
Proof.
  assert (Hin : In blank_priority (rows two_rows)) by (right; left; reflexivity).
  split; [exact two_rows_well_keyed|]. split; [exact Hin|].
  exact (get_finds_every_row 300 two_rows blank_priority
                             two_rows_well_keyed Hin).
Defined.

(** A create after the first row was deleted gets a larger key. *)
Lemma keys_are_never_reused_witness :
  keys_drawn one_row /\ In milk_row (rows one_row) /\
  body (response (handle 300 (POST_todos (body_of report))
                         (serve [(200, DELETE_todos_id "1")] one_row)))
  = json_row (mkRow 2 "Write report" "Q3 numbers" (Some "high")
                    (Some "work") (Some false) 300) /\
  todo_id milk_row < 2.
Proof.
  assert (Hk : keys_drawn one_row).
  { split; [cbn; lia|]. repeat constructor. cbn. lia. }
  assert (Hin : In milk_row (rows one_row)) by (left; reflexivity).
  assert (Hr : body (response (handle 300 (POST_todos (body_of report))
                         (serve [(200, DELETE_todos_id "1")] one_row)))
               = json_row (mkRow 2 "Write report" "Q3 numbers" (Some "high")
                                 (Some "work") (Some false) 300))
    by reflexivity.
  repeat (split; [assumption|]).
  exact (keys_are_never_reused one_row milk_row [(200, DELETE_todos_id "1")]
                               300 (body_of report) _ Hk Hin Hr).
Defined.


(** An update with a title and [completed] only, on a stored row. *)
Lemma partial_update_is_refused_witness :
  int4in "1" = inr 1 /\
  (exists r, In r (rows two_rows) /\ todo_id r = 1) /\
  (prepareValue (b_title partial_update) = None \/
   prepareValue (b_description partial_update) = None) /\
  response (handle 300 (PUT_todos_id "1" partial_update) two_rows)
  = mkResponse 500 (text_body "Server Error") /\
  store (handle 300 (PUT_todos_id "1" partial_update) two_rows) = two_rows.
Proof.
  assert (Hid : int4in "1" = inr 1) by reflexivity.
  assert (Hrow : exists r, In r (rows two_rows) /\ todo_id r = 1)
    by (exists milk_row; split; [left|]; reflexivity).
  assert (Hnone : prepareValue (b_title partial_update) = None \/
                  prepareValue (b_description partial_update) = None)
    by (right; reflexivity).
  repeat (split; [assumption|]).
  exact (partial_update_is_refused 300 two_rows "1" 1 partial_update
                                   Hid Hrow Hnone).
Defined.

(** Deleting the first of two rows. *)
Lemma delete_removes_row_once_witness :
  int4in "1" = inr 1 /\
  exists t',
    handle 300 (DELETE_todos_id "1") two_rows
    = mkHandled (res_json (json_message "Todo deleted successfully")) [] t' /\
    rows t' = [blank_priority] /\
    handle 301 (GET_todos_id "1") t' = mkHandled (res_json no_body) [] t' /\
    handle 301 (DELETE_todos_id "1") t'
    = mkHandled (res_json (json_message "Todo deleted successfully")) [] t'.
Proof.
  assert (Hid : int4in "1" = inr 1) by reflexivity.
  split; [exact Hid|].
  destruct (delete_removes_row_once 300 301 two_rows "1" 1 Hid)
    as (t' & Hdel & Hrows & _ & Hget & _ & Hagain).
  exists t'. repeat split; assumption.
Defined.

(** A create that sends [null] for priority and category. *)
Lemma explicit_null_is_stored_witness :
  fits 255 "Call home" /\ fits 255 "before eight" /\
  keys_drawn one_row /\ sequence_open one_row /\
  exists r,
    response (handle 200 (POST_todos null_priority) one_row)
    = res_json (json_row r) /\
    priority r = None /\ category r = None.
Proof.
  assert (H1 : fits 255 "Call home") by (split; [reflexivity | cbn; lia]).
  assert (H2 : fits 255 "before eight") by (split; [reflexivity | cbn; lia]).
  assert (Hk : keys_drawn one_row).
  { split; [cbn; lia|]. repeat constructor. cbn. lia. }
  assert (Hs : sequence_open one_row) by reflexivity.
  repeat (split; [assumption|]).
  exact (proj2 (explicit_null_is_stored 200 one_row null_priority)
               _ _ eq_refl H1 H2 Hk Hs).
Defined.

(** A third todo created while the container shows the two rows. *)
Lemma create_keeps_container_in_step_witness :
  keys_drawn two_rows /\ in_step fetched two_rows /\
  createTodo 300 (body_of report) two_rows
  = (resolved (json_row report_row),
     mkTable [milk_row; blank_priority; report_row] 3) /\
  in_step (addTodo (resolved report_row) fetched)
          (mkTable [milk_row; blank_priority; report_row] 3).
Proof.
  assert (Hstep : in_step fetched two_rows) by reflexivity.
  assert (Hc : createTodo 300 (body_of report) two_rows
               = (resolved (json_row report_row),
                  mkTable [milk_row; blank_priority; report_row] 3))
    by reflexivity.
  split; [exact two_rows_keys_drawn|]. split; [exact Hstep|].
  split; [exact Hc|].
  exact (create_keeps_container_in_step 300 (body_of report) two_rows _
           fetched report_row two_rows_keys_drawn Hstep Hc).
Defined.

(** Marking the first stored todo as done. *)
Lemma done_keeps_container_in_step_witness :
  well_keyed two_rows /\ in_step fetched two_rows /\
  In milk_row (todos fetched) /\
  exists t',
    deleteTodo 300 (todo_id milk_row) two_rows
    = (resolved (json_message "Todo deleted successfully"), t') /\
    in_step (markAsDone (todo_id milk_row) (resolved tt) fetched) t' /\
    ~ In milk_row (todos (markAsDone (todo_id milk_row) (resolved tt)
                                     fetched)).
Proof.
  assert (Hstep : in_step fetched two_rows) by reflexivity.
  assert (Hin : In milk_row (todos fetched)) by (right; left; reflexivity).
  split; [exact two_rows_well_keyed|]. split; [exact Hstep|].
  split; [exact Hin|].
  exact (done_keeps_container_in_step 300 two_rows fetched milk_row
           two_rows_well_keyed Hstep Hin).
Defined.

(** A title of spaces only is refused; a title typed with surrounding
    spaces is handed over as typed. *)
Lemma submit_needs_visible_text_witness :
  (all_white (d_title (formData spaces_only)) = true \/
   all_white (d_description (formData spaces_only)) = true) /\
  handleSubmit (fun _ => resolved tt) spaces_only
  = mkSubmission (Some "Please fill in both title and description")
                 None spaces_only /\
  all_white (d_title (formData typed)) = false /\
  all_white (d_description (formData typed)) = false /\
  handed (handleSubmit (fun _ => resolved tt) typed)
  = Some (mkData "  Buy milk " "2%" "low" "shopping").
Proof.
  assert (Hw : all_white (d_title (formData spaces_only)) = true \/
               all_white (d_description (formData spaces_only)) = true)
    by (left; reflexivity).
  assert (H1 : all_white (d_title (formData typed)) = false) by reflexivity.
  assert (H2 : all_white (d_description (formData typed)) = false)
    by reflexivity.
  destruct (submit_needs_visible_text (fun _ => resolved tt) spaces_only)
    as [Hrefuse _].
  destruct (submit_needs_visible_text (fun _ => resolved tt) typed)
    as [_ Hhand].
  split; [exact Hw|]. split; [exact (Hrefuse Hw)|].
  split; [exact H1|]. split; [exact H2|].
  exact (proj1 (proj2 (Hhand H1 H2))).
Defined.

(** A submission whose create is rejected. *)
Lemma failed_create_clears_the_form_witness :
  all_white (d_title (formData typed)) = false /\
  all_white (d_description (formData typed)) = false /\
  form (fst (submit rejected typed fetched)) = mkForm cleared false /\
  todos (snd (submit rejected typed fetched)) = todos fetched /\
  error (snd (submit rejected typed fetched)) = Some create_failed.
Proof.
  assert (H1 : all_white (d_title (formData typed)) = false) by reflexivity.
  assert (H2 : all_white (d_description (formData typed)) = false)
    by reflexivity.
  destruct (failed_create_clears_the_form rejected typed fetched H1 H2)
    as (Hform & _ & _ & Hrej).
  destruct (Hrej eq_refl) as [Htodos Herr].
  repeat (split; [assumption|]). exact Herr.
Defined.

(** The typed title stored with its surrounding spaces. *)
Lemma form_created_rows_have_visible_text_witness :
  handed (handleSubmit (fun _ => resolved tt) typed) = Some (formData typed) /\
  body (response (handle 100 (POST_todos (body_of (formData typed)))
                         empty_table))
  = json_row typed_row /\
  all_white (title typed_row) = false /\
  title typed_row = d_title (formData typed).
Proof.
  assert (Hh : handed (handleSubmit (fun _ => resolved tt) typed)
               = Some (formData typed)) by reflexivity.
  assert (Hr : body (response (handle 100
                                 (POST_todos (body_of (formData typed)))
                                 empty_table))
               = json_row typed_row) by reflexivity.
  destruct (form_created_rows_have_visible_text
              (fun _ => resolved tt) typed (formData typed) 100 empty_table
              typed_row Hh Hr) as (_ & Hw & _ & Heq & _).
  split; [exact Hh|]. split; [exact Hr|]. split; [exact Hw|].
  apply Heq. cbn. lia.
Defined.

(** A todo with priority [urgent] under the [low] filter. *)
Lemma priority_badge_and_filter_witness :
  priority urgent = Some "urgent" /\ filterPriority low_only = "low" /\
  priority_badge urgent = Low /\
  matchesPriority low_only urgent = false /\
  filteredTodos low_only = [].
Proof.
  assert (Hp : priority urgent = Some "urgent") by reflexivity.
  assert (Hf : filterPriority low_only = "low") by reflexivity.
  destruct (priority_badge_and_filter low_only urgent) as (_ & _ & _ & H).
  destruct (H "urgent" Hp) as [Hbadge Hout]; try discriminate.
  split; [exact Hp|]. split; [exact Hf|]. split; [exact Hbadge|].
  split; [exact (Hout Hf) | reflexivity].
Defined.

(** Seven matching todos give five numbered cards. *)
Lemma list_component_numbers_cards_witness :
  loading seven = false /\
  exists cards,
    list_component seven = Some (Cards cards) /\
    map number cards = [1; 2; 3; 4; 5]%nat /\
    map done_key cards = [7; 6; 5; 4; 3].
Proof.
  assert (Hl : loading seven = false) by reflexivity.
  split; [exact Hl|].
  destruct (list_component_numbers_cards seven Hl) as [_ Hcards].
  eexists. split; [reflexivity|].
  destruct (Hcards _ eq_refl) as (Hn & Hk & _).
  split; [exact Hn | exact Hk].
Defined.

(** The migration on a table that holds a user's todo titled
    [Test Todo]. *)
Lemma migrate_deletes_test_titles_witness :
  keys_drawn with_test_title /\ sequence_open with_test_title /\
  migrate 500 (Some with_test_title) = (0, mkTable [milk_row] 3).
Proof.
  assert (Hk : keys_drawn with_test_title).
  { split; [cbn; lia|]. repeat constructor; cbn; lia. }
  assert (Hs : sequence_open with_test_title) by reflexivity.
  split; [exact Hk|]. split; [exact Hs|].
  exact (proj1 (migrate_deletes_test_titles 500 with_test_title Hk Hs)).
Defined.

(** The migration on an exhausted sequence. *)
Lemma migrate_edge_cases_witness :
  int4_max <= last_value exhausted /\
  migrate 500 (Some exhausted) = (1, exhausted).
Proof.
  assert (H : int4_max <= last_value exhausted) by (cbn; lia).
  split; [exact H|].
  exact (proj2 (migrate_edge_cases 500) exhausted H).
Defined.

End FurtherInstances.
